(** * ByteMLPerf micro-perf backend: the adaptive benchmarking protocol

    A shallow embedding of [byte_micro_perf/backends/backend.py]: the tensor
    provisioner ([Backend.build_tensor]), the timed execution core
    ([Backend.core_perf]) and the orchestration entry point ([Backend.perf]),
    followed by the properties the specification states about them.

    Conventions of the embedding.
    - Python integers are [Z].  Python floats are read as exact rationals
      ([Q]): products and quotients are not rounded, and the constants
      involved ([0.9], [1e3], [1e9], [10.]) are written as in the source.
      The properties below are about which branch is taken and which
      integer comes out.  The one operation whose result depends on the
      binary representation is [round(x, 2)] of line 229, which rounds the
      decimal expansion of a binary64: there the rational is first taken
      to the nearest binary64 ([binary64]), and what is stated about a
      reported latency is its distance to the exact quotient.
    - Exceptions are explicit: a computation returns [Ret a] or [Raise e],
      and keeps the effects it had before raising.  The type [exn] stands
      for instances of [Exception], which is what [except Exception]
      catches.
    - The capability methods that the base class leaves to the hardware
      backends ([device_synchronize], [barrier], [empty_cache],
      [get_torch_device_name], [get_mem_info]) are those of a concrete
      backend: they return, and calling them is recorded.
    - Everything outside the class is an oracle of the environment: the
      registries, the attributes of the [torch] module, the readings of
      [time.perf_counter_ns] and the draws of [random.choice].
    - Effects that can be observed from outside (device synchronisation,
      barrier, clock readings, operator invocations, releasing the pool,
      emptying the device cache, emitting the report) are appended to a
      chronological trace. *)

From Stdlib Require Import ZArith QArith Qround Qabs Qpower Lia Lqa String List.
From stdpp Require Import base strings list gmap.

(** ** Python values, exceptions, outcomes *)

(** The values that can sit in a tensor pool: the tensor sets built by the
    registry's constructor, and the integers that [build_tensor] returns
    next to the empty list on one of its paths.  A tensor is an opaque
    handle; like a 0-d tensor it cannot be unpacked. *)
#[warnings="-register-all"]
Inductive pyval : Type :=
| VInt (z : Z)
| VTensor (h : nat)
| VList (l : list pyval)
| VTuple (l : list pyval).

Inductive exn : Type :=
| AttributeError
| NotImplementedError
| UnboundLocalError
| TypeError
| ZeroDivisionError
| IndexError
| RuntimeError (msg : string).

Inductive outcome (A : Type) : Type :=
| Ret (a : A)
| Raise (e : exn).
Arguments Ret {A} a.
Arguments Raise {A} e.

Definition is_ret {A} (o : outcome A) : bool :=
  match o with Ret _ => true | Raise _ => false end.

(** ** The observable trace and the machine state *)

Inductive report_kind : Type := CommunicationOps | ComputationOps.

Inductive event : Type :=
| EvCreateTensors                (* create_tensors_func(...) was called *)
| EvDeviceSynchronize            (* self.device_synchronize() *)
| EvBarrier                      (* self.barrier() *)
| EvPerfCounter (t : Z)          (* time.perf_counter_ns() returned t *)
| EvRunOp (args : list pyval)    (* operation(args) was invoked *)
| EvPrintExc (e : exn)           (* traceback.print_exc() *)
| EvDelTensorList                (* del tensor_list *)
| EvEmptyCache                   (* self.empty_cache() *)
| EvDumpReport (k : report_kind). (* dump_*_ops_report(...) *)

Record state : Type := mkState {
  ticks : nat;          (* readings of the clock so far *)
  draws : nat;          (* calls of random.choice so far *)
  calls : nat;          (* invocations of the operator so far *)
  builds : nat;         (* invocations of the tensor constructor so far *)
  trace : list event    (* what happened, oldest first *)
}.

Definition initial_state : state := mkState 0 0 0 0 [].

(** ** A state-and-exception monad *)

Definition M (A : Type) : Type := state → outcome A * state.

Global Instance M_ret : MRet M := λ A a st, (Ret a, st).

Global Instance M_bind : MBind M := λ A B f m st,
  match m st with
  | (Ret a, st') => f a st'
  | (Raise e, st') => (Raise e, st')
  end.

Definition raise {A} (e : exn) : M A := λ st, (Raise e, st).

Definition lift {A} (o : outcome A) : M A := λ st, (o, st).

(** [try: body except Exception as e: handler e] *)
Definition try_except {A} (body : M A) (handler : exn → M A) : M A := λ st,
  match body st with
  | (Ret a, st') => (Ret a, st')
  | (Raise e, st') => handler e st'
  end.

(** The state after the events [evs] have been observed. *)
Definition logged (evs : list event) (st : state) : state :=
  mkState (ticks st) (draws st) (calls st) (builds st) (trace st ++ evs).

Definition log (e : event) : M unit := λ st, (Ret tt, logged [e] st).

(** [for i in range(n): body i], counting from [i]. *)
Fixpoint for_range_from (i n : nat) (body : nat → M unit) : M unit :=
  match n with
  | O => mret tt
  | S n' => body i ;; for_range_from (S i) n' body
  end.

(** [range(n)] is empty when [n] is not positive. *)
Definition for_range (n : Z) (body : nat → M unit) : M unit :=
  for_range_from 0 (Z.to_nat n) body.

(** [[m for _ in range(n)]] *)
Fixpoint list_comprehension {A} (n : nat) (m : M A) : M (list A) :=
  match n with
  | O => mret []
  | S n' => x ← m; xs ← list_comprehension n' m; mret (x :: xs)
  end.

(** ** Python arithmetic on the rationals *)

Definition Qgt_bool (x y : Q) : bool := negb (Qle_bool x y).

(** [x / y] on floats: raises when the divisor is zero. *)
Definition truediv (x y : Q) : outcome Q :=
  if Qeq_bool y 0 then Raise ZeroDivisionError else Ret (x / y)%Q.

(** The integer nearest to [q], ties to the even one. *)
Definition round_half_even (q : Q) : Z :=
  let f := Qfloor q in
  let r := (q - inject_Z f)%Q in
  if Qgt_bool (1 # 2) r then f
  else if Qgt_bool r (1 # 2) then (f + 1)%Z
  else if Z.even f then f else (f + 1)%Z.

(** The exponent [e] of the unit in the last place of the binary64 nearest
    to [a > 0]: [2^52 <= a / 2^e < 2^53], and [e] is not below the
    exponent of the subnormal numbers. *)
Definition binary64_exponent (a : Q) : Z :=
  let l := (Z.log2 (Qnum a) - Z.log2 (Zpos (Qden a)))%Z in
  Z.max (if Qle_bool (2 ^ l) a then l - 52 else l - 53) (-1074).

(** The binary64 nearest to [q], ties to the even significand.  Overflow
    is left out: the quotient of two clock readings stays far below
    [2^1024]. *)
Definition binary64 (q : Q) : Q :=
  if Qeq_bool q 0 then 0%Q
  else
    let e := binary64_exponent (Qabs q) in
    (inject_Z (round_half_even (q / 2 ^ e)) * 2 ^ e)%Q.

(** [round(x, 2)] on a float: the hundredth nearest to the exact value of
    the binary64 [x], ties to the even one (CPython rounds the correctly
    rounded decimal expansion of the double, so that [round(2.675, 2)] is
    [2.67]).  The result is written as the decimal it stands for.  The
    argument the model holds is an exact quotient; it is taken to its
    nearest binary64 first.  Python rounds each of the two divisions of
    line 188: its double is this one when the iteration count is 1 or a
    power of two, and can be the neighbour of this one otherwise. *)
Definition round2 (q : Q) : Q :=
  Qmake (round_half_even (binary64 q * 100)) 100.

(** [len(v)], [v[i]] and the unpacking [*v] of a call. *)
Definition py_len (v : pyval) : outcome nat :=
  match v with
  | VList l | VTuple l => Ret (length l)
  | VInt _ | VTensor _ => Raise TypeError
  end.

Definition py_getitem (v : pyval) (i : nat) : outcome pyval :=
  match v with
  | VList l | VTuple l =>
      match l !! i with Some x => Ret x | None => Raise IndexError end
  | VInt _ | VTensor _ => Raise TypeError
  end.

Definition py_unpack (v : pyval) : outcome (list pyval) :=
  match v with
  | VList l | VTuple l => Ret l
  | VInt _ | VTensor _ => Raise TypeError
  end.

(** [i % n] on non-negative integers: raises when [n] is zero. *)
Definition py_mod (i n : nat) : outcome nat :=
  match n with
  | O => Raise ZeroDivisionError
  | S _ => Ret (i mod n)
  end.

(** ** The environment: registries, torch, clock, randomness *)

Inductive torch_dtype : Type :=
| float32 | float16 | bfloat16 | int8 | int32 | int64.

Definition shapes : Type := list (list Z).

(** [compute_size(shapes, dtype)]: the byte-size tuple, as a sequence. *)
Definition compute_size_func : Type := shapes → torch_dtype → outcome (list Z).

(** [create_tensors(shapes, dtype, device)]; the last argument counts the
    earlier constructions, so that each call may return a fresh object. *)
Definition create_tensors_func : Type :=
  shapes → torch_dtype → string → nat → outcome pyval.

(** The operator's executable; the first argument counts the earlier
    invocations, so that its behaviour may depend on its history. *)
Definition operator : Type := nat → list pyval → outcome unit.

Record Env : Type := mkEnv {
  torch : gmap string torch_dtype;
  default_op_compute_size_registry : gmap string compute_size_func;
  default_op_create_tensors_registry : gmap string create_tensors_func;
  perf_counter_ns : nat → Z;      (* the n-th reading of the clock *)
  random_draw : nat → nat         (* the n-th draw of random.choice *)
}.

(** ** The backend instance *)

Record Backend : Type := mkBackend {
  op_name : string;
  iterations : Z;
  op : option operator;
  world_size : option Z;
  torch_device_name : string;
  avail_memory : Z;
  total_memory : Z
}.

(** [self.memory_limit = self.avail_memory // (1024**3)] *)
Definition memory_limit (self : Backend) : Z := (avail_memory self / 1024 ^ 3)%Z.

(** Modelled from the spec: [dump_communication_ops_report] and
    [dump_computation_ops_report] live in [backends.utils], which is not
    part of the sources at hand.  The report is the structured record the
    specification describes: which of the two emitters produced it, and the
    operator name, dtype, shapes, world size, latency and error it was
    given. *)
Record report : Type := mkReport {
  r_kind : report_kind;
  r_op_name : string;
  r_dtype : torch_dtype;
  r_shapes : shapes;
  r_world_size : option Z;
  r_latency : Q;
  r_error : string
}.

(** ** The methods of [Backend] *)

Section Backend.

Context (env : Env) (self : Backend).

(** *** Capabilities of the device and the runtime *)

Definition device_synchronize : M unit := log EvDeviceSynchronize.

Definition barrier : M unit := log EvBarrier.

Definition empty_cache : M unit := log EvEmptyCache.

(** [time.perf_counter_ns()] *)
Definition clock : M Z := λ st,
  let t := perf_counter_ns env (ticks st) in
  (Ret t,
   mkState (S (ticks st)) (draws st) (calls st) (builds st)
           (trace st ++ [EvPerfCounter t])).

(** [random.choice(seq)] *)
Definition random_choice (seq : pyval) : M pyval := λ st,
  match py_len seq with
  | Raise e => (Raise e, st)
  | Ret O => (Raise IndexError, st)
  | Ret (S _ as n) =>
      (py_getitem seq (random_draw env (draws st) mod n),
       mkState (ticks st) (S (draws st)) (calls st) (builds st) (trace st))
  end.

(** [getattr(torch, dtype)] *)
Definition getattr_torch (dtype : string) : M torch_dtype :=
  match torch env !! dtype with
  | Some d => mret d
  | None => raise AttributeError
  end.

(** *** Registry lookups (lines 65-75) *)

Definition get_op_compute_size_func : M compute_size_func :=
  match default_op_compute_size_registry env !! op_name self with
  | Some f => mret f
  | None => raise NotImplementedError
  end.

Definition get_op_create_tensors_func : M create_tensors_func :=
  match default_op_create_tensors_registry env !! op_name self with
  | Some f => mret f
  | None => raise NotImplementedError
  end.

(** *** [_run_operation] (lines 130-132) *)

(** The call itself: the operator runs, whatever it then does. *)
Definition invoke (f : operator) (args : list pyval) : M unit := λ st,
  (f (calls st) args,
   mkState (ticks st) (draws st) (S (calls st)) (builds st)
           (trace st ++ [EvRunOp args])).

(** [operation( *inputs )]: the arguments are unpacked, then the callee is
    called; [self.op] is [None] until [get_op_instance] has run, and [None]
    is not callable. *)
Definition _run_operation (operation : option operator) (inputs : pyval) : M unit :=
  args ← lift (py_unpack inputs);
  match operation with
  | Some f => invoke f args
  | None => raise TypeError
  end.

(** *** [build_tensor] (lines 135-175) *)

(** Lines 142-145: [tensor_size] is bound only for tuples of length 4 or 5. *)
Definition tensor_size_of (result : list Z) : option Z :=
  if (length result =? 4)%nat then result !! 1%nat
  else if (length result =? 5)%nat then result !! 4%nat
  else None.

(** Reading a local variable that may not have been bound. *)
Definition local {A} (x : option A) : M A :=
  match x with
  | Some a => mret a
  | None => raise UnboundLocalError
  end.

(** Line 150 *)
Definition assume_cache_size : Z := (1 * 1024 ^ 3)%Z.

(** Line 152 *)
Definition assume_avail_bytes : Q :=
  (inject_Z (memory_limit self) * 0.9 * inject_Z (1024 ^ 3))%Q.

(** The name list of line 156. *)
Definition provisioner_comm_ops : list string :=
  ["allreduce"; "allgather"; "reducescatter"; "alltoall"; "broadcast"; "p2p";
   "device2host"; "host2device"; "hash_table"]%string.

(** Lines 156-169 either return at once or settle [max_data_cnt]. *)
Inductive provision : Type :=
| ReturnNow (v : pyval)
| Allocate (max_data_cnt : Z).

Definition choose_max_data_cnt (tensor_size : option Z) : M provision :=
  if bool_decide (op_name self ∈ provisioner_comm_ops) then
    ts ← local tensor_size;
    if Qgt_bool (inject_Z ts) assume_avail_bytes then
      mret (ReturnNow (VList []))
    else
      mret (Allocate 1)
  else
    ts ← local tensor_size;
    if Qgt_bool (inject_Z ts) assume_avail_bytes then
      mret (ReturnNow (VTuple [VList []; VInt 0; VInt ts]))
    else if Qgt_bool (inject_Z (2 * ts)) assume_avail_bytes then
      mret (Allocate 1)
    else if (assume_cache_size <? ts)%Z then
      mret (Allocate 2)
    else
      q ← lift (truediv assume_avail_bytes (inject_Z ts));
      mret (Allocate (Z.min (Qfloor q) (iterations self))).

(** One call of the constructor (line 173). *)
Definition call_create_tensors (f : create_tensors_func)
    (input_shapes : shapes) (dtype : torch_dtype) : M pyval := λ st,
  (f input_shapes dtype (torch_device_name self) (builds st),
   mkState (ticks st) (draws st) (calls st) (S (builds st))
           (trace st ++ [EvCreateTensors])).

Definition build_tensor (input_shapes : shapes) (dtype : torch_dtype) : M pyval :=
  compute_size_func ← get_op_compute_size_func;
  result ← lift (compute_size_func input_shapes dtype);
  let tensor_size := tensor_size_of result in
  create_tensors_func ← get_op_create_tensors_func;
  p ← choose_max_data_cnt tensor_size;
  match p with
  | ReturnNow v => mret v
  | Allocate max_data_cnt =>
      tensor_list ← list_comprehension (Z.to_nat max_data_cnt)
                      (call_create_tensors create_tensors_func input_shapes dtype);
      mret (VList tensor_list)
  end.

(** *** [core_perf] (lines 178-188) *)

Definition core_perf (prefer_iterations : Z) (tensor_list : pyval) : M Q :=
  device_synchronize;;
  barrier;;
  start_time ← clock;
  for_range prefer_iterations (λ i,
    n ← lift (py_len tensor_list);
    j ← lift (py_mod i n);
    inputs ← lift (py_getitem tensor_list j);
    _run_operation (op self) inputs);;
  device_synchronize;;
  barrier;;
  end_time ← clock;
  lift (truediv (inject_Z (end_time - start_time) / 1e3)
                (inject_Z prefer_iterations)).

(** *** [perf] (lines 191-265) *)

(** Lines 224-227: the iteration count of the timed run. *)
Definition plan_iterations (avg_op_duration : Q) : M Z :=
  let max_total_duration := 10%Q in
  if Qgt_bool avg_op_duration max_total_duration then
    mret 2%Z
  else
    q ← lift (truediv max_total_duration avg_op_duration);
    mret (Z.min (Qceiling q) (iterations self)).

(** Lines 201-229: the body of the [try] block. *)
Definition measure (tensor_list : pyval) : M Q :=
  let warm_iterations := 5%Z in
  let test_iterations := 5%Z in
  (* warmup *)
  device_synchronize;;
  barrier;;
  for_range warm_iterations (λ _,
    inputs ← random_choice tensor_list;
    _run_operation (op self) inputs);;
  (* test perf *)
  device_synchronize;;
  barrier;;
  start_time ← clock;
  for_range test_iterations (λ _,
    inputs ← random_choice tensor_list;
    _run_operation (op self) inputs);;
  device_synchronize;;
  barrier;;
  end_time ← clock;
  let avg_op_duration :=
    (inject_Z (end_time - start_time) / 1e9 / inject_Z test_iterations)%Q in
  prefer_iterations ← plan_iterations avg_op_duration;
  latency ← core_perf prefer_iterations tensor_list;
  mret (round2 latency).

(** The name list of lines 245-248. *)
Definition report_comm_ops : list string :=
  ["allreduce"; "allgather"; "reducescatter"; "alltoall"; "broadcast"; "p2p";
   "device2host"; "host2device"]%string.

(** Lines 245-264: one of the two emitters, by the operator's name. *)
Definition emit_report (torch_dtype : torch_dtype) (input_shapes : shapes)
    (latency : Q) (error : string) : M report :=
  if bool_decide (op_name self ∈ report_comm_ops) then
    _ ← get_op_compute_size_func;
    log (EvDumpReport CommunicationOps);;
    mret (mkReport CommunicationOps (op_name self) torch_dtype input_shapes
                   (world_size self) latency error)
  else
    _ ← get_op_compute_size_func;
    log (EvDumpReport ComputationOps);;
    mret (mkReport ComputationOps (op_name self) torch_dtype input_shapes
                   None latency error).

Definition perf (input_shapes : shapes) (dtype : string) : M report :=
  (* create necessary tensors *)
  torch_dtype ← getattr_torch dtype;
  tensor_list ← build_tensor input_shapes torch_dtype;
  n ← lift (py_len tensor_list);
  '(latency, error) ←
    (if (0 <? n)%nat then
       try_except
         (latency ← measure tensor_list; mret (latency, ""%string))
         (λ e, log (EvPrintExc e);; mret (0%Q, "RUN_OP_ERROR"%string))
     else
       mret (0%Q, "OOM"%string));
  (* clean tensors and device memory *)
  log EvDelTensorList;;
  empty_cache;;
  (* create report for communication ops and computation ops *)
  emit_report torch_dtype input_shapes latency error.

End Backend.

(** ** Derived notions used in the statements *)

(** The report [perf] hands back for a given latency and error: the
    emitter is chosen by the name list of lines 245-248. *)
Definition report_of (self : Backend) (torch_dtype : torch_dtype)
    (input_shapes : shapes) (latency : Q) (error : string) : report :=
  if bool_decide (op_name self ∈ report_comm_ops) then
    mkReport CommunicationOps (op_name self) torch_dtype input_shapes
             (world_size self) latency error
  else
    mkReport ComputationOps (op_name self) torch_dtype input_shapes
             None latency error.

(** What the [try] block of [perf] leaves behind: the latency, the error
    and the state, whether the measurement returned or raised. *)
Definition measured (env : Env) (self : Backend) (tensor_list : pyval)
    (st : state) : Q * string * state :=
  match measure env self tensor_list st with
  | (Ret latency, st') => (latency, ""%string, st')
  | (Raise e, st') => (0%Q, "RUN_OP_ERROR"%string, logged [EvPrintExc e] st')
  end.

(** The arguments the operator receives from pool slot [i % len(pool)]. *)
Definition slot_args (pool : list pyval) (i : nat) : list pyval :=
  match pool !! (i mod length pool) with
  | Some (VList args) | Some (VTuple args) => args
  | _ => []
  end.

(** The body of the warm-up and calibration loops (lines 210 and 217). *)
Definition random_run (env : Env) (self : Backend) (tensor_list : pyval) :
    nat → M unit := λ _,
  inputs ← random_choice env tensor_list;
  _run_operation (op self) inputs.

(** The body of the timed loop (line 183). *)
Definition cyclic_run (self : Backend) (tensor_list : pyval) :
    nat → M unit := λ i,
  n ← lift (py_len tensor_list);
  j ← lift (py_mod i n);
  inputs ← lift (py_getitem tensor_list j);
  _run_operation (op self) inputs.

(** *** [get_op_instance] (lines 59-63)

    The method binds [self.op]; the backend it leaves is returned.  The
    registry of executables is the module's [default_op_registry]. *)
Definition get_op_instance (default_op_registry : gmap string operator)
    (self : Backend) : outcome Backend :=
  match default_op_registry !! op_name self with
  | Some f =>
      Ret (mkBackend (op_name self) (iterations self) (Some f) (world_size self)
                     (torch_device_name self) (avail_memory self)
                     (total_memory self))
  | None => Raise NotImplementedError
  end.

(** ** Relations between the state before and after a computation *)

(** [m] takes every state to one related to it by [R], whether it returns
    or raises. *)
Definition respects {A} (R : relation state) (m : M A) : Prop :=
  ∀ st, R st (m st).2.

(** [m] invokes the operator at most [k] times. *)
Definition invokes_at_most {A} (k : nat) (m : M A) : Prop :=
  ∀ st, calls (m st).2 ≤ calls st + k.

(** Nothing happened but calls of the tensor constructor, each recorded. *)
Definition only_built (st st' : state) : Prop :=
  calls st' = calls st ∧ ticks st' = ticks st ∧ draws st' = draws st
  ∧ builds st ≤ builds st'
  ∧ trace st' = trace st ++ replicate (builds st' - builds st) EvCreateTensors.

(** Every invocation of the operator that happened received arguments
    that satisfy [P]. *)
Definition invoked_on (P : list pyval → Prop) (st st' : state) : Prop :=
  ∃ evs, trace st' = trace st ++ evs
         ∧ ∀ a, EvRunOp a ∈ evs → P a.

(** ** Sample workloads

    Concrete environments and backends, used to run the model. *)

Definition demo_torch : gmap string torch_dtype :=
  <["float32"%string := float32]> (<["float16"%string := float16]>
    (<["bfloat16"%string := bfloat16]> (<["int32"%string := int32]> ∅))).

(** A size function returning the 4-tuple [(1, rw_bytes, r, w)]. *)
Definition size4 (rw_bytes : Z) : compute_size_func :=
  λ _ _, Ret [1; rw_bytes; rw_bytes / 2; rw_bytes / 2]%Z.

(** A size function returning a 5-tuple with an explicit [tensor_size]. *)
Definition size5 (rw_bytes tensor_size : Z) : compute_size_func :=
  λ _ _, Ret [1; rw_bytes; rw_bytes / 2; rw_bytes / 2; tensor_size]%Z.

(** A size function returning a 3-tuple. *)
Definition size3 : compute_size_func := λ _ _, Ret [1; 64; 64]%Z.

(** A constructor returning two fresh tensors. *)
Definition two_tensors : create_tensors_func :=
  λ _ _ _ b, Ret (VList [VTensor (2 * b); VTensor (2 * b + 1)]).

(** An operator that always returns, and one that always raises. *)
Definition op_ok : operator := λ _ _, Ret tt.

Definition op_fail : operator := λ _ _, Raise (RuntimeError "device error").

(** The registries: every sample operator is built by [two_tensors];
    [tensor_size] is the byte size reported for all of them but
    [bad_tuple], whose size function returns a 3-tuple. *)
Definition demo_size_registry (tensor_size : Z) : gmap string compute_size_func :=
  <["gemm"%string := size4 tensor_size]> (<["add"%string := size5 8 tensor_size]>
    (<["allreduce"%string := size4 tensor_size]>
      (<["hash_table"%string := size4 tensor_size]>
        (<["bad_tuple"%string := size3]> ∅)))).

Definition demo_create_registry : gmap string create_tensors_func :=
  <["gemm"%string := two_tensors]> (<["add"%string := two_tensors]>
    (<["allreduce"%string := two_tensors]>
      (<["hash_table"%string := two_tensors]>
        (<["bad_tuple"%string := two_tensors]> ∅)))).

(** A clock advancing by [step] nanoseconds per reading, and draws that
    walk through the pool. *)
Definition demo_env (tensor_size step : Z) : Env :=
  mkEnv demo_torch (demo_size_registry tensor_size) demo_create_registry
        (λ n, (Z.of_nat n * step)%Z) (λ n, n).

(** A backend with [gib] GiB of available device memory. *)
Definition demo_backend (name : string) (iters gib : Z) (f : operator) : Backend :=
  mkBackend name iters (Some f) None "cuda" (gib * 1024 ^ 3) (80 * 1024 ^ 3).

(** The sample backends the examples below run. *)
Definition gemm_80GiB : Backend := demo_backend "gemm" 100 80 op_ok.

Definition gemm_1GiB : Backend := demo_backend "gemm" 100 1 op_ok.

Definition allreduce_80GiB : Backend := demo_backend "allreduce" 100 80 op_ok.


(** * Properties *)

(** ** Arithmetic and monad lemmas *)

Lemma Qgt_bool_true (x y : Q) : Qgt_bool x y = true ↔ (y < x)%Q.
Proof.
  unfold Qgt_bool. rewrite negb_true_iff, <- not_true_iff_false, Qle_bool_iff.
  split; [apply Qnot_le_lt | apply Qlt_not_le].
Qed.

Lemma Qgt_bool_false (x y : Q) : Qgt_bool x y = false ↔ (x <= y)%Q.
Proof.
  unfold Qgt_bool. rewrite negb_false_iff. apply Qle_bool_iff.
Qed.

Lemma truediv_ret (x y : Q) : ¬ (y == 0)%Q → truediv x y = Ret (x / y)%Q.
Proof.
  intros Hy. unfold truediv.
  destruct (Qeq_bool y 0) eqn:E; [|reflexivity].
  apply Qeq_bool_iff in E. contradiction.
Qed.

Lemma truediv_zero (x y : Q) : (y == 0)%Q → truediv x y = Raise ZeroDivisionError.
Proof.
  intros Hy. unfold truediv. apply Qeq_bool_iff in Hy. now rewrite Hy.
Qed.

Lemma bind_unfold {A B} (m : M A) (f : A → M B) (st : state) :
  (m ≫= f) st =
  match m st with
  | (Ret a, st') => f a st'
  | (Raise e, st') => (Raise e, st')
  end.
Proof. reflexivity. Qed.

Lemma bind_ret {A B} (m : M A) (f : A → M B) (st st' : state) (a : A) :
  m st = (Ret a, st') → (m ≫= f) st = f a st'.
Proof. intros H. rewrite bind_unfold, H. reflexivity. Qed.

Lemma bind_raise {A B} (m : M A) (f : A → M B) (st st' : state) (e : exn) :
  m st = (Raise e, st') → (m ≫= f) st = (Raise e, st').
Proof. intros H. rewrite bind_unfold, H. reflexivity. Qed.

(** ** The tensor provisioner *)

Section Provisioner.

Context (env : Env) (self : Backend).

(** Choosing the pool size has no effect on the state. *)
Lemma choose_max_data_cnt_state (tensor_size : option Z) (st : state) :
  (choose_max_data_cnt self tensor_size st).2 = st.
Proof.
  unfold choose_max_data_cnt, local, lift, raise, mbind, M_bind, mret, M_ret.
  destruct tensor_size as [ts|];
    repeat match goal with
           | |- context [if ?b then _ else _] => destruct b
           | |- context [truediv ?x ?y] => destruct (truediv x y)
           end; reflexivity.
Qed.

(** The list comprehension of line 172 yields one tensor set per slot when
    the constructor returns. *)
Lemma list_comprehension_create (g : create_tensors_func) (input_shapes : shapes)
    (dtype : torch_dtype) (n : nat) (st : state) :
  (∀ b, is_ret (g input_shapes dtype (torch_device_name self) b) = true) →
  ∃ pool st',
    list_comprehension n (call_create_tensors self g input_shapes dtype) st
      = (Ret pool, st')
    ∧ length pool = n
    ∧ calls st' = calls st ∧ ticks st' = ticks st ∧ draws st' = draws st.
Proof.
  intros Hg. revert st. induction n as [|n IH]; intros st.
  - exists [], st. repeat split; reflexivity.
  - simpl. rewrite bind_unfold. unfold call_create_tensors at 1.
    specialize (Hg (builds st)).
    destruct (g input_shapes dtype (torch_device_name self) (builds st)) as [v|e];
      [|discriminate].
    match goal with |- context [(_ ≫= _) ?s] =>
      destruct (IH s) as (pool & st' & Hrun & Hlen & Hc & Ht & Hd) end.
    exists (v :: pool), st'. rewrite bind_unfold, Hrun. simpl in *.
    repeat split; congruence.
Qed.

(** [build_tensor] when lines 156-169 settle on a pool size. *)
Lemma build_tensor_allocate (input_shapes : shapes) (dtype : torch_dtype)
    (st : state) (f : compute_size_func) (g : create_tensors_func)
    (result : list Z) (k : Z) :
  default_op_compute_size_registry env !! op_name self = Some f →
  f input_shapes dtype = Ret result →
  default_op_create_tensors_registry env !! op_name self = Some g →
  (∀ b, is_ret (g input_shapes dtype (torch_device_name self) b) = true) →
  choose_max_data_cnt self (tensor_size_of result) st = (Ret (Allocate k), st) →
  ∃ pool st',
    build_tensor env self input_shapes dtype st = (Ret (VList pool), st')
    ∧ length pool = Z.to_nat k
    ∧ calls st' = calls st ∧ ticks st' = ticks st ∧ draws st' = draws st.
Proof.
  intros Hf Hres Hg Htot Hchoose.
  destruct (list_comprehension_create g input_shapes dtype (Z.to_nat k) st Htot)
    as (pool & st' & Hrun & Hlen & Hrest).
  exists pool, st'. split; [|split; assumption].
  unfold build_tensor, get_op_compute_size_func, get_op_create_tensors_func.
  rewrite Hf, Hg. rewrite bind_unfold. simpl.
  rewrite bind_unfold. unfold lift at 1. rewrite Hres.
  rewrite bind_unfold. simpl.
  rewrite bind_unfold, Hchoose.
  rewrite bind_unfold, Hrun. reflexivity.
Qed.

(** [build_tensor] when lines 156-169 return at once. *)
Lemma build_tensor_return_now (input_shapes : shapes) (dtype : torch_dtype)
    (st : state) (f : compute_size_func) (g : create_tensors_func)
    (result : list Z) (v : pyval) :
  default_op_compute_size_registry env !! op_name self = Some f →
  f input_shapes dtype = Ret result →
  default_op_create_tensors_registry env !! op_name self = Some g →
  choose_max_data_cnt self (tensor_size_of result) st = (Ret (ReturnNow v), st) →
  build_tensor env self input_shapes dtype st = (Ret v, st).
Proof.
  intros Hf Hres Hg Hchoose.
  unfold build_tensor, get_op_compute_size_func, get_op_create_tensors_func.
  rewrite Hf, Hg. rewrite bind_unfold. simpl.
  rewrite bind_unfold. unfold lift at 1. rewrite Hres.
  rewrite bind_unfold. simpl.
  rewrite bind_unfold, Hchoose. reflexivity.
Qed.

End Provisioner.

(** ** Communication-class operators get one tensor set *)

(** C7: for an operator named in the provisioner's communication list, the
    pool has exactly one tensor set when [tensor_size] is at most
    [assume_avail_bytes], and is empty otherwise; it never has more than
    one. *)
Theorem comm_pool_at_most_one (env : Env) (self : Backend)
    (input_shapes : shapes) (dtype : torch_dtype) (st : state)
    (f : compute_size_func) (g : create_tensors_func) (result : list Z) (ts : Z) :
  op_name self ∈ provisioner_comm_ops →
  default_op_compute_size_registry env !! op_name self = Some f →
  f input_shapes dtype = Ret result →
  tensor_size_of result = Some ts →
  default_op_create_tensors_registry env !! op_name self = Some g →
  (∀ b, is_ret (g input_shapes dtype (torch_device_name self) b) = true) →
  ∃ pool st',
    build_tensor env self input_shapes dtype st = (Ret (VList pool), st')
    ∧ length pool ≤ 1
    ∧ ((inject_Z ts <= assume_avail_bytes self)%Q → length pool = 1)
    ∧ ((assume_avail_bytes self < inject_Z ts)%Q → length pool = 0).
Proof.
  intros Hin Hf Hres Hts Hg Htot.
  destruct (Qgt_bool (inject_Z ts) (assume_avail_bytes self)) eqn:E.
  - (* line 158: return [] *)
    exists [], st. split.
    + apply (build_tensor_return_now env self _ _ _ f g result); try assumption.
      unfold choose_max_data_cnt. rewrite bool_decide_eq_true_2 by assumption.
      rewrite Hts. simpl. rewrite bind_unfold. simpl. now rewrite E.
    + apply Qgt_bool_true in E. simpl. split; [lia | split].
      * intros Hle. exfalso. apply (Qlt_not_le _ _ E Hle).
      * intros _. reflexivity.
  - (* line 160: max_data_cnt = 1 *)
    destruct (build_tensor_allocate env self input_shapes dtype st f g result 1)
      as (pool & st' & Hrun & Hlen & _); try assumption.
    { unfold choose_max_data_cnt. rewrite bool_decide_eq_true_2 by assumption.
      rewrite Hts. simpl. rewrite bind_unfold. simpl. now rewrite E. }
    exists pool, st'. apply Qgt_bool_false in E.
    change (Z.to_nat 1) with 1 in Hlen.
    split; [assumption | split; [lia | split]].
    + intros _. assumption.
    + intros Hlt. exfalso. apply (Qlt_not_le _ _ Hlt E).
Qed.

Lemma comm_pool_at_most_one_witness :
  ∃ pool st',
    build_tensor (demo_env 4096 1000) (demo_backend "allreduce" 100 80 op_ok)
                 [[64; 64]%Z] float32 initial_state = (Ret (VList pool), st')
    ∧ length pool ≤ 1
    ∧ ((inject_Z 4096 <= assume_avail_bytes (demo_backend "allreduce" 100 80 op_ok))%Q
       → length pool = 1)
    ∧ ((assume_avail_bytes (demo_backend "allreduce" 100 80 op_ok) < inject_Z 4096)%Q
       → length pool = 0).
Proof.
  apply (comm_pool_at_most_one (demo_env 4096 1000)
           (demo_backend "allreduce" 100 80 op_ok) [[64; 64]%Z] float32
           initial_state (size4 4096) two_tensors [1; 4096; 2048; 2048]%Z 4096).
  - apply (bool_decide_unpack _). vm_compute. exact I.
  - vm_compute. reflexivity.
  - reflexivity.
  - reflexivity.
  - vm_compute. reflexivity.
  - intros b. reflexivity.
Defined.

(** ** Computation-class operators *)

Section ComputationPool.

Context (env : Env) (self : Backend).
Context (input_shapes : shapes) (dtype : torch_dtype) (st : state).
Context (f : compute_size_func) (g : create_tensors_func).
Context (result : list Z) (ts : Z).

Hypothesis Hname : op_name self ∉ provisioner_comm_ops.
Hypothesis Hf : default_op_compute_size_registry env !! op_name self = Some f.
Hypothesis Hres : f input_shapes dtype = Ret result.
Hypothesis Hts : tensor_size_of result = Some ts.
Hypothesis Hg : default_op_create_tensors_registry env !! op_name self = Some g.
Hypothesis Htot : ∀ b, is_ret (g input_shapes dtype (torch_device_name self) b) = true.

(** Lines 162-169, read off [choose_max_data_cnt]. *)
Lemma choose_computation :
  choose_max_data_cnt self (Some ts) st =
  if Qgt_bool (inject_Z ts) (assume_avail_bytes self) then
    (Ret (ReturnNow (VTuple [VList []; VInt 0; VInt ts])), st)
  else if Qgt_bool (inject_Z (2 * ts)) (assume_avail_bytes self) then
    (Ret (Allocate 1), st)
  else if (assume_cache_size <? ts)%Z then
    (Ret (Allocate 2), st)
  else
    match truediv (assume_avail_bytes self) (inject_Z ts) with
    | Ret q => (Ret (Allocate (Z.min (Qfloor q) (iterations self))), st)
    | Raise e => (Raise e, st)
    end.
Proof.
  unfold choose_max_data_cnt. rewrite bool_decide_eq_false_2 by assumption.
  simpl. rewrite bind_unfold. simpl.
  repeat match goal with |- context [if ?b then _ else _] => destruct b end;
    reflexivity.
Qed.

(** Below half of the budget, neither of the first two tests fires and the
    quotient of line 169 is at least 2. *)
Lemma below_half_budget :
  (1 ≤ ts)%Z →
  (inject_Z ts < assume_avail_bytes self / 2)%Q →
  Qgt_bool (inject_Z ts) (assume_avail_bytes self) = false
  ∧ Qgt_bool (inject_Z (2 * ts)) (assume_avail_bytes self) = false
  ∧ truediv (assume_avail_bytes self) (inject_Z ts)
    = Ret (assume_avail_bytes self / inject_Z ts)%Q
  ∧ (2 ≤ Qfloor (assume_avail_bytes self / inject_Z ts))%Z.
Proof.
  intros H1 Hhalf.
  assert (Hpos : (0 < inject_Z ts)%Q).
  { change 0%Q with (inject_Z 0). rewrite <- Zlt_Qlt. lia. }
  assert (Ehalf : (assume_avail_bytes self / 2
                   == assume_avail_bytes self * (1 # 2))%Q)
    by (unfold Qdiv; reflexivity).
  rewrite Ehalf in Hhalf.
  assert (H2 : (2 * inject_Z ts <= assume_avail_bytes self)%Q) by lra.
  repeat split.
  - apply Qgt_bool_false. lra.
  - apply Qgt_bool_false. rewrite inject_Z_mult. exact H2.
  - apply truediv_ret. intros E. rewrite E in Hpos. now apply Qlt_irrefl in Hpos.
  - change 2%Z with (Qfloor (inject_Z 2)). apply Qfloor_resp_le.
    apply Qle_shift_div_l; [exact Hpos | exact H2].
Qed.

(** C5, amended: between 1 byte and half of [assume_avail_bytes], the pool
    of a computation-class operator has
    [min(floor(assume_avail_bytes / tensor_size), iterations)] tensor sets
    when [tensor_size] does not exceed the assumed cache size of 1 GiB, and
    then at least one as soon as one iteration is requested; above the
    cache size it has exactly two. *)
Theorem computation_pool_size :
  (1 ≤ ts)%Z →
  (inject_Z ts < assume_avail_bytes self / 2)%Q →
  ∃ pool st',
    build_tensor env self input_shapes dtype st = (Ret (VList pool), st')
    ∧ ((ts ≤ assume_cache_size)%Z →
       length pool
       = Z.to_nat (Z.min (Qfloor (assume_avail_bytes self / inject_Z ts))
                         (iterations self))
       ∧ ((1 ≤ iterations self)%Z →
          Z.of_nat (length pool)
          = Z.min (Qfloor (assume_avail_bytes self / inject_Z ts))
                  (iterations self)
          ∧ 1 ≤ length pool))
    ∧ ((assume_cache_size < ts)%Z → length pool = 2).
Proof.
  intros H1 Hhalf.
  destruct (below_half_budget H1 Hhalf) as (E1 & E2 & Ediv & Hfloor).
  pose proof choose_computation as Hchoose. rewrite E1, E2, Ediv in Hchoose.
  destruct (assume_cache_size <? ts)%Z eqn:Ecache.
  - (* line 167: max_data_cnt = 2 *)
    destruct (build_tensor_allocate env self input_shapes dtype st f g result 2)
      as (pool & st' & Hrun & Hlen & _); try assumption.
    { now rewrite Hts. }
    exists pool, st'. apply Z.ltb_lt in Ecache.
    split; [assumption | split].
    + intros Hle. lia.
    + intros _. exact Hlen.
  - (* line 169 *)
    destruct (build_tensor_allocate env self input_shapes dtype st f g result
                (Z.min (Qfloor (assume_avail_bytes self / inject_Z ts))
                       (iterations self)))
      as (pool & st' & Hrun & Hlen & _); try assumption.
    { now rewrite Hts. }
    exists pool, st'. apply Z.ltb_ge in Ecache.
    split; [assumption | split].
    + intros _. split; [exact Hlen | intros Hit; lia].
    + intros Hlt. lia.
Qed.

End ComputationPool.

Lemma computation_pool_size_witness :
  ∃ pool st',
    build_tensor (demo_env 4096 1000) gemm_80GiB [[64; 64]%Z] float32 initial_state
      = (Ret (VList pool), st')
    ∧ ((4096 ≤ assume_cache_size)%Z →
       length pool
       = Z.to_nat (Z.min (Qfloor (assume_avail_bytes gemm_80GiB / inject_Z 4096))
                         (iterations gemm_80GiB))
       ∧ ((1 ≤ iterations gemm_80GiB)%Z →
          Z.of_nat (length pool)
          = Z.min (Qfloor (assume_avail_bytes gemm_80GiB / inject_Z 4096))
                  (iterations gemm_80GiB)
          ∧ 1 ≤ length pool))
    ∧ ((assume_cache_size < 4096)%Z → length pool = 2).
Proof.
  apply (computation_pool_size (demo_env 4096 1000) gemm_80GiB [[64; 64]%Z]
           float32 initial_state (size4 4096) two_tensors
           [1; 4096; 2048; 2048]%Z 4096).
  - apply (bool_decide_eq_false_1 _). vm_compute. reflexivity.
  - vm_compute. reflexivity.
  - reflexivity.
  - reflexivity.
  - vm_compute. reflexivity.
  - intros b. reflexivity.
  - lia.
  - vm_compute. reflexivity.
Defined.

(** C5 as stated fails above the cache size: with 80 GiB available and a
    tensor size of 2 GiB, far below half of the budget, the pool has two
    tensor sets, while [min(floor(assume_avail_bytes / tensor_size),
    iterations)] is 36. *)
Lemma computation_pool_size_counterexample :
  (op_name gemm_80GiB ∉ provisioner_comm_ops)
  ∧ (1 ≤ 2 ^ 31)%Z
  ∧ (inject_Z (2 ^ 31) < assume_avail_bytes gemm_80GiB / 2)%Q
  ∧ ∃ pool st',
      build_tensor (demo_env (2 ^ 31) 1000) gemm_80GiB [[64; 64]%Z] float32
                   initial_state = (Ret (VList pool), st')
      ∧ length pool = 2
      ∧ Z.min (Qfloor (assume_avail_bytes gemm_80GiB / inject_Z (2 ^ 31)))
              (iterations gemm_80GiB) = 36%Z.
Proof.
  split; [apply (bool_decide_eq_false_1 _); vm_compute; reflexivity |].
  split; [lia |].
  split; [vm_compute; reflexivity |].
  eexists _, _. split; [vm_compute; reflexivity |].
  split; vm_compute; reflexivity.
Qed.

(** With no iteration requested the pool of line 169 is empty, whatever the
    memory: the lower bound of C5 needs [iterations >= 1]. *)
Example computation_pool_empty_without_iterations :
  build_tensor (demo_env 4096 1000) (demo_backend "gemm" 0 80 op_ok)
               [[64; 64]%Z] float32 initial_state
  = (Ret (VList []), initial_state).
Proof. vm_compute. reflexivity. Qed.

(** ** The orchestration of [perf] *)

Lemma bind_inv_ret {A B} (m : M A) (f : A → M B) (st st' : state) (b : B) :
  (m ≫= f) st = (Ret b, st') →
  ∃ a st1, m st = (Ret a, st1) ∧ f a st1 = (Ret b, st').
Proof.
  rewrite bind_unfold. destruct (m st) as [[a|e] st1]; [eauto | discriminate].
Qed.

Lemma bind_log {B} (e : event) (k : unit → M B) (st : state) :
  (log e ≫= k) st = k tt (logged [e] st).
Proof. reflexivity. Qed.

Lemma logged_logged (evs1 evs2 : list event) (st : state) :
  logged evs2 (logged evs1 st) = logged (evs1 ++ evs2) st.
Proof. unfold logged. simpl. now rewrite app_assoc. Qed.

Section Perf.

Context (env : Env) (self : Backend).

(** A pool that [build_tensor] returned comes from a registered operator
    and is a list or a tuple. *)
Lemma build_tensor_registered (input_shapes : shapes) (dtype : torch_dtype)
    (st st1 : state) (pool : pyval) :
  build_tensor env self input_shapes dtype st = (Ret pool, st1) →
  ∃ f, default_op_compute_size_registry env !! op_name self = Some f.
Proof.
  unfold build_tensor, get_op_compute_size_func. intros H.
  destruct (default_op_compute_size_registry env !! op_name self) as [f|];
    [eauto | discriminate].
Qed.


(** The emitter returns once the size function has been found again. *)
Lemma emit_report_spec (td : torch_dtype) (input_shapes : shapes) (latency : Q)
    (error : string) (st : state) (f : compute_size_func) :
  default_op_compute_size_registry env !! op_name self = Some f →
  emit_report env self td input_shapes latency error st
  = (Ret (report_of self td input_shapes latency error),
     logged [EvDumpReport (r_kind (report_of self td input_shapes latency error))] st).
Proof.
  intros Hf. unfold emit_report, report_of, get_op_compute_size_func.
  rewrite Hf. destruct (bool_decide _); reflexivity.
Qed.

(** [perf], once the dtype has been found and the pool provisioned. *)
Lemma perf_after_build (input_shapes : shapes) (dtype : string)
    (td : torch_dtype) (st st1 : state) (pool : pyval) (n : nat) :
  torch env !! dtype = Some td →
  build_tensor env self input_shapes td st = (Ret pool, st1) →
  py_len pool = Ret n →
  perf env self input_shapes dtype st =
  let '(latency, error, st2) :=
    if (0 <? n)%nat then measured env self pool st1
    else (0%Q, "OOM"%string, st1) in
  (Ret (report_of self td input_shapes latency error),
   logged [EvDelTensorList; EvEmptyCache;
           EvDumpReport (r_kind (report_of self td input_shapes latency error))]
          st2).
Proof.
  intros Htd Hbuild Hlen.
  destruct (build_tensor_registered _ _ _ _ _ Hbuild) as [f Hf].
  unfold perf, getattr_torch. rewrite Htd.
  rewrite bind_unfold. simpl. rewrite bind_unfold, Hbuild.
  rewrite bind_unfold. unfold lift at 1. rewrite Hlen.
  rewrite bind_unfold. unfold measured.
  destruct (0 <? n)%nat.
  - unfold try_except. rewrite bind_unfold.
    destruct (measure env self pool st1) as [[latency|e] st2]; simpl;
      unfold empty_cache;
      rewrite !bind_log, (emit_report_spec _ _ _ _ _ f Hf), !logged_logged;
      reflexivity.
  - simpl. unfold empty_cache.
    rewrite !bind_log, (emit_report_spec _ _ _ _ _ f Hf), !logged_logged.
    reflexivity.
Qed.

(** The fields of the report. *)
Lemma report_of_latency td input_shapes latency error :
  r_latency (report_of self td input_shapes latency error) = latency.
Proof. unfold report_of. destruct (bool_decide _); reflexivity. Qed.

Lemma report_of_error td input_shapes latency error :
  r_error (report_of self td input_shapes latency error) = error.
Proof. unfold report_of. destruct (bool_decide _); reflexivity. Qed.


(** The [try] block ends with no error, or with [RUN_OP_ERROR] and latency
    0; it never ends with [OOM]. *)
Lemma measured_cases (pool : pyval) (st1 : state) :
  ∃ latency error st2,
    measured env self pool st1 = (latency, error, st2)
    ∧ ((error = ""%string ∧ measure env self pool st1 = (Ret latency, st2))
       ∨ (error = "RUN_OP_ERROR"%string ∧ latency = 0%Q
          ∧ ∃ e st', measure env self pool st1 = (Raise e, st')
                     ∧ st2 = logged [EvPrintExc e] st')).
Proof.
  unfold measured. destruct (measure env self pool st1) as [[latency|e] st2].
  - exists latency, ""%string, st2. split; [reflexivity | left; split; reflexivity].
  - eexists _, _, _. split; [reflexivity | right].
    split; [reflexivity | split; [reflexivity | eauto]].
Qed.

End Perf.

(** ** Loops over the pool *)

(** A loop whose body always returns and keeps an invariant returns and
    keeps it. *)
Lemma for_range_from_invariant (I : state → Prop) (body : nat → M unit) :
  (∀ i st, I st → ∃ st', body i st = (Ret tt, st') ∧ I st') →
  ∀ n i st, I st → ∃ st', for_range_from i n body st = (Ret tt, st') ∧ I st'.
Proof.
  intros Hbody. induction n as [|n IH]; intros i st HI.
  - exists st. split; [reflexivity | assumption].
  - destruct (Hbody i st HI) as (st1 & Hrun & HI1).
    destruct (IH (S i) st1 HI1) as (st2 & Hrest & HI2).
    exists st2. split; [|assumption].
    simpl. rewrite bind_unfold, Hrun. exact Hrest.
Qed.

(** A loop whose first iteration raises, raises. *)
Lemma for_range_from_raise (body : nat → M unit) (n i : nat) (st st' : state)
    (e : exn) :
  body i st = (Raise e, st') →
  for_range_from i (S n) body st = (Raise e, st').
Proof. intros H. simpl. rewrite bind_unfold, H. reflexivity. Qed.

Section Loops.

Context (env : Env) (self : Backend).

(** When every invocation of the operator raises, so does the loop body:
    either the slot cannot be drawn or unpacked, or the operator is
    invoked and raises. *)
Lemma random_run_raises (f : operator) (tensor_list : pyval) (i : nat) (st : state) :
  op self = Some f →
  (∀ c args, is_ret (f c args) = false) →
  ∃ e st', random_run env self tensor_list i st = (Raise e, st').
Proof.
  intros Hop Hf. unfold random_run. rewrite bind_unfold.
  destruct (random_choice env tensor_list st) as [[inputs|e] st1]; [|eauto].
  unfold _run_operation. rewrite Hop, bind_unfold. unfold lift.
  destruct (py_unpack inputs) as [args|e]; [|eauto].
  unfold invoke. specialize (Hf (calls st1) args).
  destruct (f (calls st1) args); [discriminate | eauto].
Qed.

Context (f : operator) (pool : list pyval).

Hypothesis Hop : op self = Some f.
Hypothesis Hok : ∀ c args, f c args = Ret tt.
Hypothesis Hpool : pool ≠ [].
Hypothesis Hunpack : ∀ v, v ∈ pool → is_ret (py_unpack v) = true.

Lemma pool_slot (i : nat) :
  ∃ v, pool !! (i mod length pool) = Some v
       ∧ py_unpack v = Ret (slot_args pool i).
Proof.
  assert (Hlen : length pool ≠ 0) by (destruct pool; simpl; congruence).
  destruct (lookup_lt_is_Some_2 pool (i mod length pool)) as [v Hv].
  { apply Nat.mod_upper_bound. exact Hlen. }
  exists v. split; [exact Hv |].
  pose proof (Hunpack v (list_elem_of_lookup_2 _ _ _ Hv)) as Hu.
  unfold slot_args. rewrite Hv. destruct v; simpl in *; congruence.
Qed.

(** One iteration of warm-up or calibration: the operator is invoked once
    and no time is read. *)
Lemma random_run_ok (i : nat) (st : state) :
  ∃ st', random_run env self (VList pool) i st = (Ret tt, st')
         ∧ ticks st' = ticks st.
Proof.
  unfold random_run, random_choice. rewrite bind_unfold.
  destruct (pool_slot (random_draw env (draws st))) as (v & Hv & Hargs).
  assert (Hlen : length pool ≠ 0) by (destruct pool; simpl; congruence).
  unfold py_len, py_getitem.
  destruct (length pool) as [|k] eqn:Elen; [congruence |].
  rewrite Hv. unfold _run_operation. rewrite Hop, bind_unfold.
  unfold lift. rewrite Hargs. unfold invoke. rewrite Hok.
  eexists. split; reflexivity.
Qed.

Lemma random_loop_ok (n : Z) (st : state) :
  ∃ st', for_range n (random_run env self (VList pool)) st = (Ret tt, st')
         ∧ ticks st' = ticks st.
Proof.
  unfold for_range.
  apply (for_range_from_invariant (λ s, ticks s = ticks st)); [|reflexivity].
  intros i s Hs. destruct (random_run_ok i s) as (s' & Hrun & Ht).
  exists s'. split; [exact Hrun | congruence].
Qed.

(** One iteration of the timed loop invokes the operator on the arguments
    of slot [i % len(pool)]. *)
Lemma cyclic_run_ok (i : nat) (st : state) :
  cyclic_run self (VList pool) i st
  = (Ret tt,
     mkState (ticks st) (draws st) (S (calls st)) (builds st)
             (trace st ++ [EvRunOp (slot_args pool i)])).
Proof.
  unfold cyclic_run. rewrite bind_unfold. simpl.
  assert (Hlen : length pool ≠ 0) by (destruct pool; simpl; congruence).
  rewrite bind_unfold. unfold lift at 1, py_mod.
  destruct (length pool) as [|k] eqn:Elen; [congruence |].
  rewrite <- Elen.
  destruct (pool_slot i) as (v & Hv & Hargs).
  rewrite bind_unfold. unfold lift at 1. simpl. rewrite Hv.
  unfold _run_operation. rewrite Hop, bind_unfold.
  unfold lift. rewrite Hargs. unfold invoke. rewrite Hok. reflexivity.
Qed.

Lemma cyclic_loop_ok (n i : nat) (st : state) :
  for_range_from i n (cyclic_run self (VList pool)) st
  = (Ret tt,
     mkState (ticks st) (draws st) (calls st + n) (builds st)
             (trace st ++ map (λ j, EvRunOp (slot_args pool j)) (seq i n))).
Proof.
  revert i st. induction n as [|n IH]; intros i st.
  - simpl. rewrite Nat.add_0_r, app_nil_r. destruct st; reflexivity.
  - simpl. rewrite bind_unfold, cyclic_run_ok, IH. simpl.
    rewrite <- app_assoc, Nat.add_succ_r. reflexivity.
Qed.

End Loops.

(** ** The iteration planner *)

Section Planner.

Context (self : Backend).

Lemma plan_iterations_over_budget (avg : Q) (st : state) :
  (10 < avg)%Q → plan_iterations self avg st = (Ret 2%Z, st).
Proof.
  intros H. unfold plan_iterations.
  apply Qgt_bool_true in H. rewrite H. reflexivity.
Qed.

Lemma plan_iterations_within_budget (avg : Q) (st : state) :
  (avg <= 10)%Q → ¬ (avg == 0)%Q →
  plan_iterations self avg st
  = (Ret (Z.min (Qceiling (10 / avg)) (iterations self)), st).
Proof.
  intros H H0. unfold plan_iterations.
  apply Qgt_bool_false in H. rewrite H.
  rewrite bind_unfold. unfold lift. rewrite (truediv_ret _ _ H0). reflexivity.
Qed.

Lemma plan_iterations_zero (avg : Q) (st : state) :
  (avg == 0)%Q →
  plan_iterations self avg st = (Raise ZeroDivisionError, st).
Proof.
  intros H0. unfold plan_iterations.
  assert (H : (avg <= 10)%Q) by (rewrite H0; discriminate).
  apply Qgt_bool_false in H. rewrite H.
  rewrite bind_unfold. unfold lift. rewrite (truediv_zero _ _ H0). reflexivity.
Qed.

(** The quotient of line 227 is at least 1 for a positive average within
    the budget. *)
Lemma ceiling_budget_positive (avg : Q) :
  (0 < avg)%Q → (avg <= 10)%Q → (1 ≤ Qceiling (10 / avg))%Z.
Proof.
  intros Hpos Hle.
  assert (H1 : (1 <= 10 / avg)%Q).
  { apply Qle_shift_div_l; [exact Hpos | lra]. }
  apply Qceiling_resp_le in H1. exact H1.
Qed.

End Planner.




(** An average of 20 seconds yields 2 iterations, and one millisecond with
    a cap of 100000 yields 10000. *)
Example plan_iterations_20s :
  plan_iterations gemm_80GiB 20 initial_state = (Ret 2%Z, initial_state).
Proof. reflexivity. Qed.

Example plan_iterations_capped :
  plan_iterations gemm_80GiB 0.001 initial_state = (Ret 100%Z, initial_state).
Proof. reflexivity. Qed.

(** ** The timed execution core *)

Lemma bind_lift_ret {A B} (a : A) (k : A → M B) (st : state) :
  (lift (Ret a) ≫= k) st = k a st.
Proof. reflexivity. Qed.

Lemma pool_nonempty (pool : list pyval) : 1 ≤ length pool → pool ≠ [].
Proof. intros H E. rewrite E in H. simpl in H. lia. Qed.

Section Core.

Context (env : Env) (self : Backend).

Lemma bind_clock {B} (k : Z → M B) (st : state) :
  (clock env ≫= k) st
  = k (perf_counter_ns env (ticks st))
      (mkState (S (ticks st)) (draws st) (calls st) (builds st)
               (trace st ++ [EvPerfCounter (perf_counter_ns env (ticks st))])).
Proof. reflexivity. Qed.

(** With no iteration to run, the quotient of line 188 divides by zero,
    whatever the pool. *)
Lemma core_perf_zero (tensor_list : pyval) (st : state) :
  ∃ st', core_perf env self 0 tensor_list st = (Raise ZeroDivisionError, st')
         ∧ calls st' = calls st.
Proof.
  unfold core_perf, device_synchronize, barrier, for_range.
  rewrite !bind_log, bind_clock. simpl.
  rewrite bind_unfold. simpl. rewrite !bind_log, bind_clock. simpl.
  eexists. split; reflexivity.
Qed.

Context (f : operator) (pool : list pyval).

Hypothesis Hop : op self = Some f.
Hypothesis Hok : ∀ c args, f c args = Ret tt.
Hypothesis Hpool : 1 ≤ length pool.
Hypothesis Hunpack : ∀ v, v ∈ pool → is_ret (py_unpack v) = true.

(** C4: with a pool of [k >= 1] tensor sets and [n >= 1] iterations,
    [core_perf] invokes the operator exactly [n] times between its two
    clock readings, the [i]-th time on slot [i % k], and returns the
    elapsed nanoseconds divided by 1000 and by [n]. *)
Theorem core_perf_cycles (n : Z) (st : state) :
  (1 ≤ n)%Z →
  ∃ st',
    core_perf env self n (VList pool) st
    = (Ret (inject_Z (perf_counter_ns env (S (ticks st))
                      - perf_counter_ns env (ticks st)) / 1e3 / inject_Z n)%Q,
       st')
    ∧ calls st' = calls st + Z.to_nat n
    ∧ trace st'
      = trace st
        ++ [EvDeviceSynchronize; EvBarrier;
            EvPerfCounter (perf_counter_ns env (ticks st))]
        ++ map (λ i, EvRunOp (slot_args pool i)) (seq 0 (Z.to_nat n))
        ++ [EvDeviceSynchronize; EvBarrier;
            EvPerfCounter (perf_counter_ns env (S (ticks st)))].
Proof.
  intros Hn.
  assert (Hn0 : ¬ (inject_Z n == 0)%Q).
  { change 0%Q with (inject_Z 0). rewrite inject_Z_injective. lia. }
  unfold core_perf, device_synchronize, barrier, for_range.
  rewrite !bind_log, bind_clock, bind_unfold.
  change (for_range_from 0 (Z.to_nat n) _)
    with (for_range_from 0 (Z.to_nat n) (cyclic_run self (VList pool))).
  rewrite (cyclic_loop_ok self f pool Hop Hok (pool_nonempty pool Hpool) Hunpack).
  rewrite !bind_log, bind_clock. simpl.
  unfold lift. rewrite (truediv_ret _ _ Hn0).
  eexists. split; [reflexivity |]. simpl. split; [reflexivity |].
  rewrite <- !app_assoc. reflexivity.
Qed.

End Core.

Lemma core_perf_cycles_witness :
  ∃ st',
    core_perf (demo_env 4096 1000) gemm_80GiB 5
              (VList [VList [VTensor 0]; VList [VTensor 1]; VList [VTensor 2]])
              initial_state
    = (Ret (inject_Z (1000 - 0) / 1e3 / inject_Z 5)%Q, st')
    ∧ calls st' = 5
    ∧ trace st'
      = [EvDeviceSynchronize; EvBarrier; EvPerfCounter 0;
         EvRunOp [VTensor 0]; EvRunOp [VTensor 1]; EvRunOp [VTensor 2];
         EvRunOp [VTensor 0]; EvRunOp [VTensor 1];
         EvDeviceSynchronize; EvBarrier; EvPerfCounter 1000].
Proof.
  apply (core_perf_cycles (demo_env 4096 1000) gemm_80GiB op_ok
           [VList [VTensor 0]; VList [VTensor 1]; VList [VTensor 2]]).
  - reflexivity.
  - intros c args. reflexivity.
  - simpl. lia.
  - intros v Hv. repeat (apply elem_of_cons in Hv as [-> | Hv]; [reflexivity |]).
    inversion Hv.
  - lia.
Defined.

(** ** Calibration *)

Section Measure.

Context (env : Env) (self : Backend).

(** When every invocation of the operator raises, the first warm-up
    iteration makes the [try] block raise. *)
Lemma measure_raises (f : operator) (tensor_list : pyval) (st : state) :
  op self = Some f →
  (∀ c args, is_ret (f c args) = false) →
  ∃ e st', measure env self tensor_list st = (Raise e, st').
Proof.
  intros Hop Hf. unfold measure, device_synchronize, barrier, for_range.
  rewrite !bind_log, bind_unfold.
  change (Z.to_nat 5) with 5.
  destruct (random_run_raises env self f tensor_list 0
              (logged [EvBarrier] (logged [EvDeviceSynchronize] st)) Hop Hf)
    as (e & st' & Hrun).
  exists e, st'.
  change (for_range_from 0 5 _)
    with (for_range_from 0 5 (random_run env self tensor_list)).
  rewrite (for_range_from_raise _ _ _ _ _ _ Hrun). reflexivity.
Qed.

Context (f : operator) (pool : list pyval).

Hypothesis Hop : op self = Some f.
Hypothesis Hok : ∀ c args, f c args = Ret tt.
Hypothesis Hpool : 1 ≤ length pool.
Hypothesis Hunpack : ∀ v, v ∈ pool → is_ret (py_unpack v) = true.

(** When the operator returns, warm-up and calibration complete, the clock
    is read twice, and the timed run gets the iteration count planned from
    the average of the calibration window. *)
Lemma measure_calibrated (st : state) :
  ∃ st_c,
    measure env self (VList pool) st
    = (plan_iterations self
         (inject_Z (perf_counter_ns env (S (ticks st))
                    - perf_counter_ns env (ticks st)) / 1e9 / inject_Z 5)
       ≫= λ prefer_iterations,
           core_perf env self prefer_iterations (VList pool)
           ≫= λ latency, mret (round2 latency)) st_c
    ∧ ticks st_c = S (S (ticks st)).
Proof.
  pose proof (pool_nonempty pool Hpool) as Hne.
  unfold measure, device_synchronize, barrier.
  rewrite !bind_log, bind_unfold.
  destruct (random_loop_ok env self f pool Hop Hok Hne Hunpack 5
              (logged [EvBarrier] (logged [EvDeviceSynchronize] st)))
    as (st1 & Hwarm & Ht1).
  change (for_range 5 _) with (for_range 5 (random_run env self (VList pool))).
  rewrite Hwarm, !bind_log, bind_clock, bind_unfold.
  match goal with |- context [for_range 5 _ ?s] =>
    destruct (random_loop_ok env self f pool Hop Hok Hne Hunpack 5 s)
      as (st2 & Htest & Ht2) end.
  rewrite Htest, !bind_log, bind_clock.
  simpl in Ht1, Ht2. simpl ticks. rewrite Ht2, Ht1.
  eexists. split; [reflexivity |]. simpl. congruence.
Qed.

End Measure.

(** ** What [perf] returns and what it lets through *)

Section PerfOutcomes.

Context (env : Env) (self : Backend).
Context (input_shapes : shapes) (dtype : string) (st : state).

(** An unknown dtype name makes line 195 raise. *)
Lemma perf_getattr_raises :
  torch env !! dtype = None →
  perf env self input_shapes dtype st = (Raise AttributeError, st).
Proof.
  intros H. unfold perf, getattr_torch. rewrite H. reflexivity.
Qed.

(** Line 196 is outside of the [try] block: what [build_tensor] raises,
    [perf] raises. *)
Lemma perf_build_raises (td : torch_dtype) (e : exn) (st1 : state) :
  torch env !! dtype = Some td →
  build_tensor env self input_shapes td st = (Raise e, st1) →
  perf env self input_shapes dtype st = (Raise e, st1).
Proof.
  intros Htd Hbuild. unfold perf, getattr_torch. rewrite Htd.
  rewrite bind_unfold. simpl. rewrite bind_unfold, Hbuild. reflexivity.
Qed.


(** Once the pool is built, [perf] returns a report: after the [try]
    block or the [OOM] branch come the release of the pool, the emptying
    of the cache and the emitter, in this order. *)
Lemma perf_terminal (td : torch_dtype) (pool : pyval) (st1 : state) (n : nat) :
  torch env !! dtype = Some td →
  build_tensor env self input_shapes td st = (Ret pool, st1) →
  py_len pool = Ret n →
  ∃ latency error st2,
    perf env self input_shapes dtype st
    = (Ret (report_of self td input_shapes latency error),
       logged [EvDelTensorList; EvEmptyCache;
               EvDumpReport (r_kind (report_of self td input_shapes latency error))]
              st2)
    ∧ (n = 0 → latency = 0%Q ∧ error = "OOM"%string ∧ st2 = st1)
    ∧ (0 < n →
       (error = ""%string ∧ measure env self pool st1 = (Ret latency, st2))
       ∨ (error = "RUN_OP_ERROR"%string ∧ latency = 0%Q
          ∧ ∃ e st', measure env self pool st1 = (Raise e, st')
                     ∧ st2 = logged [EvPrintExc e] st')).
Proof.
  intros Htd Hbuild Hlen.
  rewrite (perf_after_build env self _ _ td st st1 pool n Htd Hbuild Hlen).
  destruct n as [|n].
  - simpl. exists 0%Q, "OOM"%string, st1.
    split; [reflexivity | split; [auto | lia]].
  - change (0 <? S n)%nat with true. cbv iota.
    destruct (measured_cases env self pool st1)
      as (latency & error & st2 & Hm & Hcases).
    rewrite Hm. exists latency, error, st2.
    split; [reflexivity | split; [discriminate | intros _; exact Hcases]].
Qed.

End PerfOutcomes.




(** C8: whenever the pool has been provisioned, [perf] reaches one of its
    three terminal states and returns a report; the last three events
    before it returns are the release of the pool, the emptying of the
    device cache, and the emitter, in this order.  When the pool is not
    empty and every invocation of the operator raises, the report has
    latency 0 and error ["RUN_OP_ERROR"]. *)
Theorem cleanup_precedes_report (env : Env) (self : Backend)
    (input_shapes : shapes) (dtype : string) (st : state)
    (td : torch_dtype) (pool : pyval) (st1 : state) (n : nat) :
  torch env !! dtype = Some td →
  build_tensor env self input_shapes td st = (Ret pool, st1) →
  py_len pool = Ret n →
  ∃ r st' tr,
    perf env self input_shapes dtype st = (Ret r, st')
    ∧ trace st' = tr ++ [EvDelTensorList; EvEmptyCache; EvDumpReport (r_kind r)]
    ∧ (r_error r = ""%string
       ∨ (r_error r = "OOM"%string ∧ r_latency r = 0%Q)
       ∨ (r_error r = "RUN_OP_ERROR"%string ∧ r_latency r = 0%Q))
    ∧ (∀ f, op self = Some f → (∀ c args, is_ret (f c args) = false) →
       0 < n →
       r_latency r = 0%Q ∧ r_error r = "RUN_OP_ERROR"%string).
Proof.
  intros Htd Hbuild Hlen.
  destruct (perf_terminal env self input_shapes dtype st td pool st1 n
              Htd Hbuild Hlen)
    as (latency & error & st2 & Hperf & Hzero & Hpos).
  eexists _, _, (trace st2). split; [exact Hperf |].
  split; [reflexivity |].
  rewrite report_of_error, report_of_latency.
  split.
  - destruct n as [|n].
    + destruct Hzero as (-> & -> & _); auto.
    + destruct Hpos as [[-> _] | (-> & -> & _)]; [lia | auto | auto].
  - intros f Hop Hf Hn.
    destruct (measure_raises env self f pool st1 Hop Hf) as (e & sx & Hraise).
    destruct (Hpos Hn) as [[_ Hret] | (-> & -> & _)]; [congruence | auto].
Qed.

Lemma cleanup_precedes_report_witness :
  ∃ r st' tr,
    perf (demo_env 4096 1000) (demo_backend "gemm" 100 80 op_fail)
         [[64; 64]%Z] "float32" initial_state = (Ret r, st')
    ∧ trace st' = tr ++ [EvDelTensorList; EvEmptyCache; EvDumpReport (r_kind r)]
    ∧ (r_error r = ""%string
       ∨ (r_error r = "OOM"%string ∧ r_latency r = 0%Q)
       ∨ (r_error r = "RUN_OP_ERROR"%string ∧ r_latency r = 0%Q))
    ∧ (∀ f, op (demo_backend "gemm" 100 80 op_fail) = Some f →
       (∀ c args, is_ret (f c args) = false) →
       0 < 100 →
       r_latency r = 0%Q ∧ r_error r = "RUN_OP_ERROR"%string).
Proof.
  eapply (cleanup_precedes_report (demo_env 4096 1000)
            (demo_backend "gemm" 100 80 op_fail) [[64; 64]%Z] "float32"
            initial_state float32).
  - vm_compute. reflexivity.
  - vm_compute. reflexivity.
  - vm_compute. reflexivity.
Defined.

(** The three terminal states, run on the sample workloads. *)
Example perf_success :
  perf (demo_env 4096 1000) (demo_backend "gemm" 3 80 op_ok)
       [[64; 64]%Z] "float32" initial_state
  = (Ret (mkReport ComputationOps "gemm" float32 [[64; 64]%Z] None
                   (33 # 100) ""),
     mkState 4 10 13 3
       ([EvCreateTensors; EvCreateTensors; EvCreateTensors;
         EvDeviceSynchronize; EvBarrier;
         EvRunOp [VTensor 0; VTensor 1]; EvRunOp [VTensor 2; VTensor 3];
         EvRunOp [VTensor 4; VTensor 5]; EvRunOp [VTensor 0; VTensor 1];
         EvRunOp [VTensor 2; VTensor 3];
         EvDeviceSynchronize; EvBarrier; EvPerfCounter 0;
         EvRunOp [VTensor 4; VTensor 5]; EvRunOp [VTensor 0; VTensor 1];
         EvRunOp [VTensor 2; VTensor 3]; EvRunOp [VTensor 4; VTensor 5];
         EvRunOp [VTensor 0; VTensor 1];
         EvDeviceSynchronize; EvBarrier; EvPerfCounter 1000;
         EvDeviceSynchronize; EvBarrier; EvPerfCounter 2000;
         EvRunOp [VTensor 0; VTensor 1]; EvRunOp [VTensor 2; VTensor 3];
         EvRunOp [VTensor 4; VTensor 5];
         EvDeviceSynchronize; EvBarrier; EvPerfCounter 3000;
         EvDelTensorList; EvEmptyCache; EvDumpReport ComputationOps])).
Proof. vm_compute. reflexivity. Qed.

Example perf_operator_raises :
  perf (demo_env 4096 1000) (demo_backend "gemm" 3 80 op_fail)
       [[64; 64]%Z] "float32" initial_state
  = (Ret (mkReport ComputationOps "gemm" float32 [[64; 64]%Z] None
                   0 "RUN_OP_ERROR"),
     mkState 0 1 1 3
       [EvCreateTensors; EvCreateTensors; EvCreateTensors;
        EvDeviceSynchronize; EvBarrier; EvRunOp [VTensor 0; VTensor 1];
        EvPrintExc (RuntimeError "device error");
        EvDelTensorList; EvEmptyCache; EvDumpReport ComputationOps]).
Proof. vm_compute. reflexivity. Qed.

Example perf_communication_oom :
  perf (demo_env (2 ^ 40) 1000) allreduce_80GiB [[64; 64]%Z] "float32"
       initial_state
  = (Ret (mkReport CommunicationOps "allreduce" float32 [[64; 64]%Z] None
                   0 "OOM"),
     mkState 0 0 0 0
       [EvDelTensorList; EvEmptyCache; EvDumpReport CommunicationOps]).
Proof. vm_compute. reflexivity. Qed.

(** ** Out of memory *)

Section OutOfMemory.

Context (env : Env) (self : Backend).
Context (input_shapes : shapes) (dtype : string) (td : torch_dtype) (st : state).
Context (f : compute_size_func) (g : create_tensors_func).
Context (result : list Z) (ts : Z).

Hypothesis Htd : torch env !! dtype = Some td.
Hypothesis Hf : default_op_compute_size_registry env !! op_name self = Some f.
Hypothesis Hres : f input_shapes td = Ret result.
Hypothesis Hts : tensor_size_of result = Some ts.
Hypothesis Hg : default_op_create_tensors_registry env !! op_name self = Some g.
Hypothesis Hbig : (assume_avail_bytes self < inject_Z ts)%Q.

(** For an operator of the communication list, a tensor size above the
    budget gives an empty pool (line 158); [perf] then reports latency 0
    and ["OOM"], and the operator is not invoked: nothing happens but the
    cleanup and the report. *)
Lemma communication_oom :
  op_name self ∈ provisioner_comm_ops →
  build_tensor env self input_shapes td st = (Ret (VList []), st)
  ∧ ∃ r st',
      perf env self input_shapes dtype st = (Ret r, st')
      ∧ r_latency r = 0%Q ∧ r_error r = "OOM"%string
      ∧ calls st' = calls st
      ∧ trace st'
        = trace st ++ [EvDelTensorList; EvEmptyCache; EvDumpReport (r_kind r)].
Proof.
  intros Hin.
  assert (Hbuild : build_tensor env self input_shapes td st = (Ret (VList []), st)).
  { apply (build_tensor_return_now env self _ _ _ f g result); try assumption.
    unfold choose_max_data_cnt. rewrite bool_decide_eq_true_2 by assumption.
    rewrite Hts. simpl. rewrite bind_unfold. simpl.
    apply Qgt_bool_true in Hbig. now rewrite Hbig. }
  split; [exact Hbuild |].
  destruct (perf_terminal env self input_shapes dtype st td (VList []) st 0
              Htd Hbuild eq_refl)
    as (latency & error & st2 & Hperf & Hzero & _).
  destruct (Hzero eq_refl) as (-> & -> & ->).
  eexists _, _. split; [exact Hperf |].
  rewrite report_of_error, report_of_latency. repeat split.
Qed.

(** C1 at a computation-class operator: line 163 returns the 3-tuple
    [([], 0, tensor_size)] where line 158 returns [[]].  Its length is 3,
    so [perf] enters the [try] block, and the report it returns does not
    say ["OOM"]. *)
Theorem computation_oom_not_reported :
  op_name self ∉ provisioner_comm_ops →
  build_tensor env self input_shapes td st
  = (Ret (VTuple [VList []; VInt 0; VInt ts]), st)
  ∧ py_len (VTuple [VList []; VInt 0; VInt ts]) = Ret 3
  ∧ ∃ r st',
      perf env self input_shapes dtype st = (Ret r, st')
      ∧ (r_error r = ""%string ∨ r_error r = "RUN_OP_ERROR"%string)
      ∧ r_error r ≠ "OOM"%string.
Proof.
  intros Hname.
  assert (Hbuild : build_tensor env self input_shapes td st
                   = (Ret (VTuple [VList []; VInt 0; VInt ts]), st)).
  { apply (build_tensor_return_now env self _ _ _ f g result); try assumption.
    rewrite Hts, (choose_computation self st ts Hname).
    apply Qgt_bool_true in Hbig. now rewrite Hbig. }
  split; [exact Hbuild | split; [reflexivity |]].
  destruct (perf_terminal env self input_shapes dtype st td _ st 3
              Htd Hbuild eq_refl)
    as (latency & error & st2 & Hperf & _ & Hpos).
  eexists _, _. split; [exact Hperf |].
  rewrite report_of_error.
  destruct Hpos as [[-> _] | (-> & _)]; [lia | |]; split; auto; discriminate.
Qed.

End OutOfMemory.

Lemma computation_oom_not_reported_witness :
  build_tensor (demo_env (2 ^ 31) 1000) gemm_1GiB [[64; 64]%Z] float32
               initial_state
  = (Ret (VTuple [VList []; VInt 0; VInt (2 ^ 31)]), initial_state)
  ∧ py_len (VTuple [VList []; VInt 0; VInt (2 ^ 31)]) = Ret 3
  ∧ ∃ r st',
      perf (demo_env (2 ^ 31) 1000) gemm_1GiB [[64; 64]%Z] "float32"
           initial_state = (Ret r, st')
      ∧ (r_error r = ""%string ∨ r_error r = "RUN_OP_ERROR"%string)
      ∧ r_error r ≠ "OOM"%string.
Proof.
  apply (computation_oom_not_reported (demo_env (2 ^ 31) 1000) gemm_1GiB
           [[64; 64]%Z] "float32" float32 initial_state (size4 (2 ^ 31))
           two_tensors [1; 2 ^ 31; 2 ^ 30; 2 ^ 30]%Z (2 ^ 31)).
  - vm_compute. reflexivity.
  - vm_compute. reflexivity.
  - reflexivity.
  - reflexivity.
  - vm_compute. reflexivity.
  - vm_compute. reflexivity.
  - apply (bool_decide_eq_false_1 _). vm_compute. reflexivity.
Defined.

(** On the sample workload the warm-up draws the empty list first and
    invokes the operator with no argument, then draws the integer 0, which
    cannot be unpacked: the report says ["RUN_OP_ERROR"]. *)
Example computation_oom_runs_operator :
  perf (demo_env (2 ^ 31) 1000) gemm_1GiB [[64; 64]%Z] "float32" initial_state
  = (Ret (mkReport ComputationOps "gemm" float32 [[64; 64]%Z] None
                   0 "RUN_OP_ERROR"),
     mkState 0 2 1 0
       [EvDeviceSynchronize; EvBarrier; EvRunOp []; EvPrintExc TypeError;
        EvDelTensorList; EvEmptyCache; EvDumpReport ComputationOps]).
Proof. vm_compute. reflexivity. Qed.

(** ** A size tuple of the wrong length *)

(** C10: when the size function returns a tuple whose length is neither 4
    nor 5, [build_tensor] raises, and [perf] raises the same exception to
    its caller; when the operator has a constructor the exception is the
    unbound [tensor_size] of line 157 or 162. *)
Theorem bad_size_tuple_propagates (env : Env) (self : Backend)
    (input_shapes : shapes) (dtype : string) (td : torch_dtype) (st : state)
    (f : compute_size_func) (result : list Z) :
  torch env !! dtype = Some td →
  default_op_compute_size_registry env !! op_name self = Some f →
  f input_shapes td = Ret result →
  length result ≠ 4 → length result ≠ 5 →
  ∃ e,
    build_tensor env self input_shapes td st = (Raise e, st)
    ∧ perf env self input_shapes dtype st = (Raise e, st)
    ∧ (is_Some (default_op_create_tensors_registry env !! op_name self) →
       e = UnboundLocalError).
Proof.
  intros Htd Hf Hres H4 H5.
  assert (Hts : tensor_size_of result = None).
  { unfold tensor_size_of.
    apply Nat.eqb_neq in H4, H5. now rewrite H4, H5. }
  assert (Hbuild : ∃ e,
            build_tensor env self input_shapes td st = (Raise e, st)
            ∧ (is_Some (default_op_create_tensors_registry env !! op_name self)
               → e = UnboundLocalError)).
  { unfold build_tensor, get_op_compute_size_func, get_op_create_tensors_func.
    rewrite Hf. rewrite bind_unfold. simpl.
    rewrite bind_unfold. unfold lift at 1. rewrite Hres, Hts.
    rewrite bind_unfold.
    destruct (default_op_create_tensors_registry env !! op_name self) as [g|].
    - exists UnboundLocalError. split; [|reflexivity].
      simpl. rewrite bind_unfold. unfold choose_max_data_cnt.
      destruct (bool_decide _); reflexivity.
    - exists NotImplementedError. split; [reflexivity |].
      intros [g Hg]. discriminate. }
  destruct Hbuild as (e & Hbuild & He).
  exists e. split; [exact Hbuild | split; [|exact He]].
  now apply (perf_build_raises env self input_shapes dtype st td).
Qed.

Lemma bad_size_tuple_propagates_witness :
  ∃ e,
    build_tensor (demo_env 4096 1000) (demo_backend "bad_tuple" 100 80 op_ok)
                 [[64; 64]%Z] float32 initial_state = (Raise e, initial_state)
    ∧ perf (demo_env 4096 1000) (demo_backend "bad_tuple" 100 80 op_ok)
           [[64; 64]%Z] "float32" initial_state = (Raise e, initial_state)
    ∧ (is_Some (default_op_create_tensors_registry (demo_env 4096 1000)
                  !! op_name (demo_backend "bad_tuple" 100 80 op_ok)) →
       e = UnboundLocalError).
Proof.
  apply (bad_size_tuple_propagates (demo_env 4096 1000)
           (demo_backend "bad_tuple" 100 80 op_ok) [[64; 64]%Z] "float32"
           float32 initial_state size3 [1; 64; 64]%Z).
  - vm_compute. reflexivity.
  - vm_compute. reflexivity.
  - reflexivity.
  - simpl. lia.
  - simpl. lia.
Defined.

Example bad_size_tuple_run :
  perf (demo_env 4096 1000) (demo_backend "bad_tuple" 100 80 op_ok)
       [[64; 64]%Z] "float32" initial_state
  = (Raise UnboundLocalError, initial_state).
Proof. vm_compute. reflexivity. Qed.

(** ** The two lists of communication operators *)






(** With 2 GiB per tensor set and 80 GiB available, [hash_table] gets the
    single tensor set of a communication operator, where a computation
    operator gets two, and its report is a computation-ops report. *)
Example hash_table_single_buffer :
  build_tensor (demo_env (2 ^ 31) 1000) (demo_backend "hash_table" 2 80 op_ok)
               [[64; 64]%Z] float32 initial_state
  = (Ret (VList [VList [VTensor 0; VTensor 1]]),
     mkState 0 0 0 1 [EvCreateTensors])
  ∧ (perf (demo_env (2 ^ 31) 1000) (demo_backend "hash_table" 2 80 op_ok)
          [[64; 64]%Z] "float32" initial_state).1
    = Ret (mkReport ComputationOps "hash_table" float32 [[64; 64]%Z] None
                    (50 # 100) "").
Proof. split; vm_compute; reflexivity. Qed.

(** * Further properties of the backend *)

(** ** Relations kept by every step *)

Section Respects.

Context (R : relation state) `{!PreOrder R}.

Lemma respects_ret {A} (a : A) : respects R (mret a).
Proof. intros st. simpl. reflexivity. Qed.

Lemma respects_raise {A} (e : exn) : respects R (raise (A := A) e).
Proof. intros st. simpl. reflexivity. Qed.

Lemma respects_lift {A} (o : outcome A) : respects R (lift o).
Proof. intros st. simpl. reflexivity. Qed.

Lemma respects_bind {A B} (m : M A) (f : A → M B) :
  respects R m → (∀ a, respects R (f a)) → respects R (m ≫= f).
Proof.
  intros Hm Hf st. rewrite bind_unfold. specialize (Hm st).
  destruct (m st) as [[a|e] st1]; simpl in *.
  - transitivity st1; [exact Hm | apply Hf].
  - exact Hm.
Qed.

Lemma respects_try_except {A} (body : M A) (handler : exn → M A) :
  respects R body → (∀ e, respects R (handler e)) →
  respects R (try_except body handler).
Proof.
  intros Hm Hh st. unfold try_except. specialize (Hm st).
  destruct (body st) as [[a|e] st1]; simpl in *.
  - exact Hm.
  - transitivity st1; [exact Hm | apply Hh].
Qed.

Lemma respects_for_range_from (body : nat → M unit) :
  (∀ i, respects R (body i)) →
  ∀ n i, respects R (for_range_from i n body).
Proof.
  intros Hbody. induction n as [|n IH]; intros i.
  - apply respects_ret.
  - simpl. apply respects_bind; [apply Hbody | intros _; apply IH].
Qed.

Lemma respects_list_comprehension {A} (m : M A) (n : nat) :
  respects R m → respects R (list_comprehension n m).
Proof.
  intros Hm. induction n as [|n IH].
  - apply respects_ret.
  - simpl. apply respects_bind; [exact Hm | intros x].
    apply respects_bind; [exact IH | intros xs; apply respects_ret].
Qed.

End Respects.

(** ** What provisioning does and does not do *)

Global Instance only_built_preorder : PreOrder only_built.
Proof.
  split.
  - intros st. unfold only_built. rewrite Nat.sub_diag. simpl.
    rewrite app_nil_r. auto.
  - intros s1 s2 s3 (Hc1 & Ht1 & Hd1 & Hb1 & Htr1) (Hc2 & Ht2 & Hd2 & Hb2 & Htr2).
    unfold only_built. repeat split; try congruence; try lia.
    rewrite Htr2, Htr1, <- app_assoc, <- replicate_add. f_equal. f_equal. lia.
Qed.

Section ProvisioningFrame.

Context (env : Env) (self : Backend).

Lemma call_create_tensors_only_built (g : create_tensors_func)
    (input_shapes : shapes) (dtype : torch_dtype) :
  respects only_built (call_create_tensors self g input_shapes dtype).
Proof.
  intros st. unfold only_built. simpl.
  replace (S (builds st) - builds st) with 1 by lia.
  repeat split; try reflexivity; lia.
Qed.

Lemma choose_max_data_cnt_only_built (tensor_size : option Z) :
  respects only_built (choose_max_data_cnt self tensor_size).
Proof.
  intros st. rewrite choose_max_data_cnt_state. reflexivity.
Qed.

Lemma build_tensor_respects_only_built (input_shapes : shapes)
    (dtype : torch_dtype) :
  respects only_built (build_tensor env self input_shapes dtype).
Proof.
  unfold build_tensor, get_op_compute_size_func, get_op_create_tensors_func.
  apply respects_bind; [apply _ | | intros f].
  { destruct (_ !! _); [apply respects_ret | apply respects_raise]; apply _. }
  apply respects_bind; [apply _ | apply respects_lift; apply _ | intros result].
  apply respects_bind; [apply _ | | intros g].
  { destruct (_ !! _); [apply respects_ret | apply respects_raise]; apply _. }
  apply respects_bind;
    [apply _ | apply choose_max_data_cnt_only_built | intros [v|k]].
  - apply respects_ret; apply _.
  - apply respects_bind; [apply _ | | intros l; apply respects_ret; apply _].
    apply respects_list_comprehension; [apply _ |].
    apply call_create_tensors_only_built.
Qed.

(** X3: whatever [build_tensor] returns or raises, it has not invoked the
    operator, read the clock or drawn a random number; all it did is call
    the tensor constructor, and the trace has one [EvCreateTensors] per
    call. *)
Theorem build_tensor_only_builds (input_shapes : shapes) (dtype : torch_dtype)
    (st : state) :
  calls (build_tensor env self input_shapes dtype st).2 = calls st
  ∧ ticks (build_tensor env self input_shapes dtype st).2 = ticks st
  ∧ draws (build_tensor env self input_shapes dtype st).2 = draws st
  ∧ builds st ≤ builds (build_tensor env self input_shapes dtype st).2
  ∧ trace (build_tensor env self input_shapes dtype st).2
    = trace st
      ++ replicate (builds (build_tensor env self input_shapes dtype st).2
                    - builds st) EvCreateTensors.
Proof. exact (build_tensor_respects_only_built input_shapes dtype st). Qed.

End ProvisioningFrame.

(** ** Reading a returned pool back *)

Lemma list_comprehension_length {A} (n : nat) (m : M A) (st st' : state)
    (l : list A) :
  list_comprehension n m st = (Ret l, st') → length l = n.
Proof.
  revert st st' l. induction n as [|n IH]; intros st st' l H.
  - injection H as <- _. reflexivity.
  - simpl in H. apply bind_inv_ret in H as (x & s1 & _ & H).
    apply bind_inv_ret in H as (xs & s2 & Hxs & H).
    injection H as <- _. simpl. f_equal. exact (IH _ _ _ Hxs).
Qed.

Section PoolInversion.

Context (env : Env) (self : Backend).

(** A value that [build_tensor] returned is what lines 156-169 decided:
    the value returned at once, or a list with [max_data_cnt] slots. *)
Lemma build_tensor_inv (input_shapes : shapes) (dtype : torch_dtype)
    (st st' : state) (v : pyval) :
  build_tensor env self input_shapes dtype st = (Ret v, st') →
  ∃ (f : compute_size_func) (result : list Z) (p : provision),
    default_op_compute_size_registry env !! op_name self = Some f
    ∧ f input_shapes dtype = Ret result
    ∧ choose_max_data_cnt self (tensor_size_of result) st = (Ret p, st)
    ∧ match p with
      | ReturnNow v' => v = v'
      | Allocate k => ∃ l, v = VList l ∧ length l = Z.to_nat k
      end.
Proof.
  unfold build_tensor, get_op_compute_size_func, get_op_create_tensors_func.
  intros H.
  destruct (default_op_compute_size_registry env !! op_name self) as [f|];
    [|discriminate].
  rewrite bind_unfold in H. simpl in H.
  apply bind_inv_ret in H as (result & s1 & Hres & H).
  unfold lift in Hres. injection Hres as Hres <-.
  destruct (default_op_create_tensors_registry env !! op_name self) as [g|];
    [|discriminate].
  rewrite bind_unfold in H. simpl in H.
  apply bind_inv_ret in H as (p & s2 & Hp & H).
  pose proof (choose_max_data_cnt_state self (tensor_size_of result) st) as Hst.
  rewrite Hp in Hst. simpl in Hst. subst s2.
  exists f, result, p. repeat split; try assumption.
  destruct p as [v'|k].
  - injection H as <- _. reflexivity.
  - apply bind_inv_ret in H as (l & s3 & Hl & H). injection H as <- _.
    exists l. split; [reflexivity |].
    exact (list_comprehension_length _ _ _ _ _ Hl).
Qed.

(** The counts that lines 156-169 can settle on: never more than two
    unless more iterations are requested, and, for a byte size that is not
    negative, never more than the budget holds. *)
Lemma choose_allocate_bounds (ts k : Z) (st st' : state) :
  choose_max_data_cnt self (Some ts) st = (Ret (Allocate k), st') →
  (k ≤ Z.max 2 (iterations self))%Z
  ∧ ((0 ≤ ts)%Z → (0 <= assume_avail_bytes self)%Q →
     (inject_Z (Z.of_nat (Z.to_nat k)) * inject_Z ts
      <= assume_avail_bytes self)%Q).
Proof.
  unfold choose_max_data_cnt, local, lift, raise, mbind, M_bind, mret, M_ret.
  destruct (bool_decide _).
  - destruct (Qgt_bool (inject_Z ts) _) eqn:E1; intros [= <- _].
    split; [lia |]. intros _ _. apply Qgt_bool_false in E1.
    change (inject_Z (Z.of_nat (Z.to_nat 1))) with 1%Q. lra.
  - destruct (Qgt_bool (inject_Z ts) _) eqn:E1; [discriminate |].
    apply Qgt_bool_false in E1.
    destruct (Qgt_bool (inject_Z (2 * ts)) _) eqn:E2.
    { intros [= <- _]. split; [lia |]. intros _ _.
      change (inject_Z (Z.of_nat (Z.to_nat 1))) with 1%Q. lra. }
    apply Qgt_bool_false in E2. rewrite inject_Z_mult in E2.
    destruct (assume_cache_size <? ts)%Z.
    { intros [= <- _]. split; [lia |]. intros _ _.
      change (inject_Z (Z.of_nat (Z.to_nat 2))) with 2%Q. exact E2. }
    unfold truediv. destruct (Qeq_bool (inject_Z ts) 0) eqn:E0; [discriminate |].
    intros H.
    assert (Hk : k = Z.min (Qfloor (assume_avail_bytes self / inject_Z ts))
                           (iterations self)) by congruence.
    clear H. split; [lia |]. intros Hts Havail.
    assert (Hne : ¬ (inject_Z ts == 0)%Q).
    { intros E. apply Qeq_bool_iff in E. congruence. }
    assert (Hpos : (0 < inject_Z ts)%Q).
    { destruct (Z.eq_dec ts 0%Z) as [-> | Hz]; [exfalso; apply Hne; reflexivity |].
      change 0%Q with (inject_Z 0). rewrite <- Zlt_Qlt. lia. }
    set (F := Qfloor (assume_avail_bytes self / inject_Z ts)) in *.
    assert (HF : (inject_Z F * inject_Z ts <= assume_avail_bytes self)%Q).
    { apply Qle_trans
        with (assume_avail_bytes self / inject_Z ts * inject_Z ts)%Q.
      - apply Qmult_le_compat_r; [apply Qfloor_le | apply Qlt_le_weak, Hpos].
      - rewrite Qmult_comm, Qmult_div_r by exact Hne. apply Qle_refl. }
    destruct (Z.le_gt_cases k 0) as [Hk0 | Hk0].
    + replace (Z.to_nat k) with 0 by lia.
      apply Qle_trans with 0%Q; [| exact Havail].
      unfold Qle. simpl. lia.
    + rewrite Z2Nat.id by lia.
      apply Qle_trans with (inject_Z F * inject_Z ts)%Q; [| exact HF].
      apply Qmult_le_compat_r; [| apply Qlt_le_weak, Hpos].
      rewrite <- Zle_Qle. lia.
Qed.

End PoolInversion.

(** ** The pool and the memory budget *)

Section PoolBounds.

Context (env : Env) (self : Backend).

Lemma choose_unbound (st : state) :
  choose_max_data_cnt self None st = (Raise UnboundLocalError, st).
Proof.
  unfold choose_max_data_cnt. destruct (bool_decide _); reflexivity.
Qed.

(** What lines 158 and 163 return holds no tensor set. *)
Lemma choose_return_now (ts : Z) (v : pyval) (st st' : state) :
  choose_max_data_cnt self (Some ts) st = (Ret (ReturnNow v), st') →
  v = VList [] ∨ v = VTuple [VList []; VInt 0; VInt ts].
Proof.
  unfold choose_max_data_cnt, local, lift, raise, mbind, M_bind, mret, M_ret.
  repeat match goal with
         | |- context [if ?b then _ else _] => destruct b
         | |- context [truediv ?x ?y] => destruct (truediv x y)
         end; intros H; try discriminate; injection H as <- _; auto.
Qed.

Lemma assume_avail_bytes_nonneg :
  (0 ≤ avail_memory self)%Z → (0 <= assume_avail_bytes self)%Q.
Proof.
  intros H. unfold assume_avail_bytes, memory_limit.
  assert (Hm : (0 ≤ avail_memory self / 1024 ^ 3)%Z)
    by (apply Z.div_pos; lia).
  apply Qmult_le_0_compat; [apply Qmult_le_0_compat |].
  - change 0%Q with (inject_Z 0). rewrite <- Zle_Qle. exact Hm.
  - discriminate.
  - discriminate.
Qed.

(** X2: the budget of line 152 is conservative twice over: it never
    exceeds nine tenths of the available memory, and it is above nine
    tenths of the available memory less one GiB, the part that the floor
    of line 53 may drop. *)
Theorem budget_below_available :
  (assume_avail_bytes self <= 0.9 * inject_Z (avail_memory self))%Q
  ∧ (0.9 * (inject_Z (avail_memory self) - inject_Z (1024 ^ 3))
     < assume_avail_bytes self)%Q.
Proof.
  unfold assume_avail_bytes, memory_limit.
  set (a := avail_memory self). set (d := (1024 ^ 3)%Z).
  assert (Hd : (0 < d)%Z) by (unfold d; lia).
  pose proof (Z.mul_div_le a d Hd) as Hle.
  pose proof (Z.mul_succ_div_gt a d Hd) as Hgt.
  assert (Hle' : (inject_Z (a / d) * inject_Z d <= inject_Z a)%Q).
  { rewrite <- inject_Z_mult, <- Zle_Qle. lia. }
  assert (Hgt' : (inject_Z a < inject_Z (a / d) * inject_Z d + inject_Z d)%Q).
  { rewrite <- inject_Z_mult, <- inject_Z_plus, <- Zlt_Qlt. lia. }
  set (x := inject_Z (a / d)) in *. set (y := inject_Z d) in *.
  set (z := inject_Z a) in *.
  assert (E : (x * 0.9 * y == 0.9 * (x * y))%Q) by ring.
  rewrite E. set (xy := (x * y)%Q) in *.
  split; lra.
Qed.

Context (input_shapes : shapes) (dtype : torch_dtype) (st st' : state).
Context (pool : list pyval).

Hypothesis Hbuild :
  build_tensor env self input_shapes dtype st = (Ret (VList pool), st').

Context (f : compute_size_func) (result : list Z) (ts : Z).

Hypothesis Hf : default_op_compute_size_registry env !! op_name self = Some f.
Hypothesis Hres : f input_shapes dtype = Ret result.
Hypothesis Hts : tensor_size_of result = Some ts.

(** X1: the tensor sets that [build_tensor] returns fit the budget: for a
    byte size and an available memory that are not negative, the number of
    slots times [tensor_size] is at most [assume_avail_bytes]. *)
Theorem pool_within_budget :
  (0 ≤ ts)%Z → (0 ≤ avail_memory self)%Z →
  (inject_Z (Z.of_nat (length pool)) * inject_Z ts
   <= assume_avail_bytes self)%Q.
Proof.
  intros Hnn Hmem.
  pose proof (assume_avail_bytes_nonneg Hmem) as Havail.
  destruct (build_tensor_inv env self _ _ _ _ _ Hbuild)
    as (f' & result' & p & Hf' & Hres' & Hchoose & Hp).
  assert (Ef : f' = f) by congruence. subst f'.
  assert (Er : result' = result) by congruence. subst result'.
  rewrite Hts in Hchoose.
  destruct p as [v|k].
  - destruct (choose_return_now _ _ _ _ Hchoose) as [-> | ->];
      [| discriminate].
    injection Hp as ->.
    apply Qle_trans with 0%Q; [| exact Havail].
    unfold Qle. simpl. lia.
  - destruct Hp as (l & [= ->] & Hlen). rewrite Hlen.
    exact (proj2 (choose_allocate_bounds self _ _ _ _ Hchoose) Hnn Havail).
Qed.

End PoolBounds.

(** X13: a list of tensor sets that [build_tensor] returns never has more
    slots than the requested iterations, or than two when fewer than two
    are requested. *)
Theorem pool_size_capped (env : Env) (self : Backend) (input_shapes : shapes)
    (dtype : torch_dtype) (st st' : state) (pool : list pyval) :
  build_tensor env self input_shapes dtype st = (Ret (VList pool), st') →
  length pool ≤ Z.to_nat (Z.max 2 (iterations self)).
Proof.
  intros Hbuild.
  destruct (build_tensor_inv env self _ _ _ _ _ Hbuild)
    as (f & result & p & _ & _ & Hchoose & Hp).
  destruct (tensor_size_of result) as [ts|];
    [| rewrite choose_unbound in Hchoose; discriminate].
  destruct p as [v|k].
  - destruct (choose_return_now _ _ _ _ _ Hchoose) as [-> | ->];
      [| discriminate].
    injection Hp as ->. simpl. lia.
  - destruct Hp as (l & [= ->] & Hlen).
    destruct (choose_allocate_bounds self _ _ _ _ Hchoose) as [Hk _]. lia.
Qed.


Lemma pool_size_capped_witness :
  length [VList [VTensor 0; VTensor 1]; VList [VTensor 2; VTensor 3]]
  ≤ Z.to_nat (Z.max 2 (iterations (demo_backend "gemm" 1 80 op_ok))).
Proof.
  apply (pool_size_capped (demo_env (2 ^ 31) 1000)
           (demo_backend "gemm" 1 80 op_ok) [[64; 64]%Z] float32 initial_state
           (mkState 0 0 0 2 [EvCreateTensors; EvCreateTensors])).
  vm_compute. reflexivity.
Defined.

Lemma pool_within_budget_witness :
  (inject_Z (Z.of_nat
     (length [VList [VTensor 0; VTensor 1]; VList [VTensor 2; VTensor 3]]))
   * inject_Z (2 ^ 31) <= assume_avail_bytes gemm_80GiB)%Q.
Proof.
  apply (pool_within_budget (demo_env (2 ^ 31) 1000) gemm_80GiB [[64; 64]%Z]
           float32 initial_state
           (mkState 0 0 0 2 [EvCreateTensors; EvCreateTensors])
           [VList [VTensor 0; VTensor 1]; VList [VTensor 2; VTensor 3]]
           ltac:(vm_compute; reflexivity)
           (size4 (2 ^ 31)) [1; 2 ^ 31; 2 ^ 30; 2 ^ 30]%Z (2 ^ 31)).
  - vm_compute. reflexivity.
  - reflexivity.
  - reflexivity.
  - lia.
  - vm_compute. discriminate.
Defined.

(** ** Edges of the provisioner *)

Section ProvisionerEdges.

Context (env : Env) (self : Backend).
Context (input_shapes : shapes) (dtype : string) (td : torch_dtype) (st : state).
Context (f : compute_size_func) (g : create_tensors_func).
Context (result : list Z) (ts : Z).

Hypothesis Htd : torch env !! dtype = Some td.
Hypothesis Hf : default_op_compute_size_registry env !! op_name self = Some f.
Hypothesis Hres : f input_shapes td = Ret result.
Hypothesis Hts : tensor_size_of result = Some ts.
Hypothesis Hg : default_op_create_tensors_registry env !! op_name self = Some g.

(** [build_tensor] up to the decision of lines 156-169. *)
Lemma build_tensor_unfold :
  build_tensor env self input_shapes td st =
  match choose_max_data_cnt self (Some ts) st with
  | (Ret (ReturnNow v), st') => (Ret v, st')
  | (Ret (Allocate k), st') =>
      match list_comprehension (Z.to_nat k)
              (call_create_tensors self g input_shapes td) st' with
      | (Ret l, st'') => (Ret (VList l), st'')
      | (Raise e, st'') => (Raise e, st'')
      end
  | (Raise e, st') => (Raise e, st')
  end.
Proof.
  unfold build_tensor, get_op_compute_size_func, get_op_create_tensors_func.
  rewrite Hf, Hg. rewrite bind_unfold. simpl.
  rewrite bind_unfold. unfold lift at 1. rewrite Hres, Hts.
  rewrite bind_unfold. simpl. rewrite bind_unfold.
  destruct (choose_max_data_cnt self (Some ts) st) as [[[v|k]|e] st'];
    reflexivity.
Qed.

(** A tensor that fits the budget gets at least one slot as soon as one
    iteration is requested. *)
Lemma fits_allocates :
  (1 ≤ ts)%Z → (inject_Z ts <= assume_avail_bytes self)%Q →
  (1 ≤ iterations self)%Z →
  ∃ k, choose_max_data_cnt self (Some ts) st = (Ret (Allocate k), st)
       ∧ (1 ≤ k)%Z.
Proof.
  intros H1 Hfit Hit.
  assert (Hpos : (0 < inject_Z ts)%Q).
  { change 0%Q with (inject_Z 0). rewrite <- Zlt_Qlt. lia. }
  apply Qgt_bool_false in Hfit as E1.
  unfold choose_max_data_cnt, local, lift, raise, mbind, M_bind, mret, M_ret.
  rewrite E1. destruct (bool_decide _); [exists 1%Z; split; [reflexivity | lia] |].
  destruct (Qgt_bool (inject_Z (2 * ts)) _);
    [exists 1%Z; split; [reflexivity | lia] |].
  destruct (assume_cache_size <? ts)%Z;
    [exists 2%Z; split; [reflexivity | lia] |].
  rewrite truediv_ret.
  - eexists. split; [reflexivity |].
    assert (Hq : (1 <= assume_avail_bytes self / inject_Z ts)%Q).
    { apply Qle_shift_div_l; [exact Hpos | lra]. }
    apply Qfloor_resp_le in Hq. change (Qfloor 1) with 1%Z in Hq. lia.
  - intros E. rewrite E in Hpos. now apply Qlt_irrefl in Hpos.
Qed.

(** X4: an exception of the tensor constructor is not turned into an
    ["OOM"] report.  When the tensor fits the budget and an iteration is
    requested, what the first call of the constructor raises is raised by
    [build_tensor], after that one call, and by [perf]. *)
Theorem constructor_failure_propagates (e : exn) :
  (1 ≤ ts)%Z → (inject_Z ts <= assume_avail_bytes self)%Q →
  (1 ≤ iterations self)%Z →
  g input_shapes td (torch_device_name self) (builds st) = Raise e →
  build_tensor env self input_shapes td st
  = (Raise e, mkState (ticks st) (draws st) (calls st) (S (builds st))
                      (trace st ++ [EvCreateTensors]))
  ∧ perf env self input_shapes dtype st
    = (Raise e, mkState (ticks st) (draws st) (calls st) (S (builds st))
                        (trace st ++ [EvCreateTensors])).
Proof.
  intros H1 Hfit Hit Hraise.
  destruct (fits_allocates H1 Hfit Hit) as (k & Hchoose & Hk).
  assert (Hbuild : build_tensor env self input_shapes td st
                   = (Raise e, mkState (ticks st) (draws st) (calls st)
                                       (S (builds st))
                                       (trace st ++ [EvCreateTensors]))).
  { rewrite build_tensor_unfold, Hchoose.
    destruct (Z.to_nat k) as [|n] eqn:En; [lia |].
    simpl. rewrite bind_unfold. unfold call_create_tensors at 1.
    rewrite Hraise. reflexivity. }
  split; [exact Hbuild |].
  exact (perf_build_raises env self input_shapes dtype st td e _ Htd Hbuild).
Qed.

(** X5: a computation-class operator whose size function reports a tensor
    size of zero makes line 169 divide by zero: [build_tensor] raises
    [ZeroDivisionError] before any tensor is built, and so does [perf]. *)
Theorem zero_tensor_size_divides_by_zero :
  op_name self ∉ provisioner_comm_ops →
  ts = 0%Z → (0 ≤ avail_memory self)%Z →
  build_tensor env self input_shapes td st = (Raise ZeroDivisionError, st)
  ∧ perf env self input_shapes dtype st = (Raise ZeroDivisionError, st).
Proof.
  intros Hname Hzero Hmem.
  pose proof (assume_avail_bytes_nonneg self Hmem) as Havail.
  assert (Hbuild : build_tensor env self input_shapes td st
                   = (Raise ZeroDivisionError, st)).
  { rewrite build_tensor_unfold, (choose_computation self st ts Hname), Hzero.
    apply Qgt_bool_false in Havail as E. change (inject_Z (2 * 0)) with 0%Q.
    change (inject_Z 0) with 0%Q. rewrite E.
    change (assume_cache_size <? 0)%Z with false. cbv iota.
    rewrite truediv_zero; reflexivity. }
  split; [exact Hbuild |].
  exact (perf_build_raises env self input_shapes dtype st td _ _ Htd Hbuild).
Qed.

(** X14: a computation-class operator whose tensor fits the budget once
    but not twice gets exactly one tensor set, whatever the requested
    iterations. *)
Theorem single_slot_band :
  op_name self ∉ provisioner_comm_ops →
  (inject_Z ts <= assume_avail_bytes self)%Q →
  (assume_avail_bytes self < 2 * inject_Z ts)%Q →
  (∀ b, is_ret (g input_shapes td (torch_device_name self) b) = true) →
  ∃ v st',
    build_tensor env self input_shapes td st = (Ret (VList [v]), st')
    ∧ g input_shapes td (torch_device_name self) (builds st) = Ret v.
Proof.
  intros Hname Hfit Htwice Htot.
  apply Qgt_bool_false in Hfit as E1.
  assert (E2 : Qgt_bool (inject_Z (2 * ts)) (assume_avail_bytes self) = true).
  { apply Qgt_bool_true. rewrite inject_Z_mult. exact Htwice. }
  rewrite build_tensor_unfold, (choose_computation self st ts Hname), E1, E2.
  change (Z.to_nat 1) with 1. simpl.
  rewrite bind_unfold. unfold call_create_tensors at 1.
  specialize (Htot (builds st)).
  destruct (g input_shapes td (torch_device_name self) (builds st)) as [v|e];
    [| discriminate].
  eexists _, _. split; reflexivity.
Qed.

End ProvisionerEdges.

Lemma constructor_failure_propagates_witness :
  build_tensor
    (mkEnv demo_torch (demo_size_registry 4096)
           (<["allreduce"%string :=
                (λ _ _ _ _, Raise (RuntimeError "CUDA out of memory"))
                : create_tensors_func]> ∅)
           (λ n, Z.of_nat n) (λ n, n))
    allreduce_80GiB [[64; 64]%Z] float32 initial_state
  = (Raise (RuntimeError "CUDA out of memory"),
     mkState 0 0 0 1 [EvCreateTensors])
  ∧ perf
      (mkEnv demo_torch (demo_size_registry 4096)
             (<["allreduce"%string :=
                  (λ _ _ _ _, Raise (RuntimeError "CUDA out of memory"))
                  : create_tensors_func]> ∅)
             (λ n, Z.of_nat n) (λ n, n))
      allreduce_80GiB [[64; 64]%Z] "float32" initial_state
    = (Raise (RuntimeError "CUDA out of memory"),
       mkState 0 0 0 1 [EvCreateTensors]).
Proof.
  apply (constructor_failure_propagates _ allreduce_80GiB [[64; 64]%Z]
           "float32" float32 initial_state (size4 4096)
           (λ _ _ _ _, Raise (RuntimeError "CUDA out of memory"))
           [1; 4096; 2048; 2048]%Z 4096).
  - vm_compute. reflexivity.
  - vm_compute. reflexivity.
  - reflexivity.
  - reflexivity.
  - vm_compute. reflexivity.
  - lia.
  - vm_compute. discriminate.
  - vm_compute. discriminate.
  - reflexivity.
Defined.

Lemma zero_tensor_size_divides_by_zero_witness :
  build_tensor (demo_env 0 1000) gemm_80GiB [[64; 64]%Z] float32 initial_state
  = (Raise ZeroDivisionError, initial_state)
  ∧ perf (demo_env 0 1000) gemm_80GiB [[64; 64]%Z] "float32" initial_state
    = (Raise ZeroDivisionError, initial_state).
Proof.
  apply (zero_tensor_size_divides_by_zero (demo_env 0 1000) gemm_80GiB
           [[64; 64]%Z] "float32" float32 initial_state (size4 0) two_tensors
           [1; 0; 0; 0]%Z 0).
  - vm_compute. reflexivity.
  - vm_compute. reflexivity.
  - reflexivity.
  - reflexivity.
  - vm_compute. reflexivity.
  - apply (bool_decide_eq_false_1 _). vm_compute. reflexivity.
  - reflexivity.
  - vm_compute. discriminate.
Defined.

Lemma single_slot_band_witness :
  ∃ v st',
    build_tensor (demo_env (50 * 2 ^ 30) 1000) gemm_80GiB [[64; 64]%Z] float32
                 initial_state = (Ret (VList [v]), st')
    ∧ two_tensors [[64; 64]%Z] float32 (torch_device_name gemm_80GiB)
                  (builds initial_state) = Ret v.
Proof.
  apply (single_slot_band (demo_env (50 * 2 ^ 30) 1000) gemm_80GiB
           [[64; 64]%Z] float32 initial_state (size4 (50 * 2 ^ 30)) two_tensors
           [1; 50 * 2 ^ 30; 25 * 2 ^ 30; 25 * 2 ^ 30]%Z (50 * 2 ^ 30)).
  - vm_compute. reflexivity.
  - reflexivity.
  - reflexivity.
  - vm_compute. reflexivity.
  - apply (bool_decide_eq_false_1 _). vm_compute. reflexivity.
  - vm_compute. discriminate.
  - vm_compute. reflexivity.
  - intros b. reflexivity.
Defined.

(** X6: the pool depends on the byte-size tuple through [tensor_size]
    only, which is [result[1]] for a 4-tuple and [result[4]] for a 5-tuple:
    two size registries whose tuples give the same [tensor_size] lead
    [build_tensor] to the same outcome and the same state. *)
Theorem pool_depends_on_tensor_size_only (env1 env2 : Env) (self : Backend)
    (input_shapes : shapes) (dtype : torch_dtype) (st : state)
    (f1 f2 : compute_size_func) (result1 result2 : list Z) :
  default_op_create_tensors_registry env1
  = default_op_create_tensors_registry env2 →
  default_op_compute_size_registry env1 !! op_name self = Some f1 →
  default_op_compute_size_registry env2 !! op_name self = Some f2 →
  f1 input_shapes dtype = Ret result1 →
  f2 input_shapes dtype = Ret result2 →
  tensor_size_of result1 = tensor_size_of result2 →
  build_tensor env1 self input_shapes dtype st
  = build_tensor env2 self input_shapes dtype st.
Proof.
  intros Hcreate Hf1 Hf2 Hres1 Hres2 Hts.
  unfold build_tensor, get_op_compute_size_func, get_op_create_tensors_func.
  rewrite Hf1, Hf2, Hcreate.
  unfold mbind, M_bind, mret, M_ret, lift. cbv beta iota.
  rewrite Hres1, Hres2. cbv beta iota. rewrite Hts. reflexivity.
Qed.

Lemma pool_depends_on_tensor_size_only_witness :
  build_tensor (mkEnv demo_torch (<["add"%string := size4 4096]> ∅)
                      demo_create_registry (λ n, Z.of_nat n) (λ n, n))
               (demo_backend "add" 3 80 op_ok) [[64; 64]%Z] float32
               initial_state
  = build_tensor (mkEnv demo_torch (<["add"%string := size5 (2 ^ 40) 4096]> ∅)
                        demo_create_registry (λ n, Z.of_nat n) (λ n, n))
                 (demo_backend "add" 3 80 op_ok) [[64; 64]%Z] float32
                 initial_state.
Proof.
  apply (pool_depends_on_tensor_size_only _ _ _ _ _ _
           (size4 4096) (size5 (2 ^ 40) 4096)
           [1; 4096; 2048; 2048]%Z [1; 2 ^ 40; 2 ^ 39; 2 ^ 39; 4096]%Z).
  - reflexivity.
  - vm_compute. reflexivity.
  - vm_compute. reflexivity.
  - reflexivity.
  - reflexivity.
  - reflexivity.
Defined.

(** ** A backend whose operator has not been bound *)

Lemma run_operation_none (inputs : pyval) (st : state) :
  _run_operation None inputs st = (Raise TypeError, st).
Proof. destruct inputs; reflexivity. Qed.

(** A draw from a pool that is not empty returns one of its slots. *)
Lemma random_choice_slot (env : Env) (tensor_list : pyval) (n : nat)
    (st : state) :
  py_len tensor_list = Ret n → 0 < n →
  ∃ x, random_choice env tensor_list st
       = (Ret x, mkState (ticks st) (S (draws st)) (calls st) (builds st)
                         (trace st)).
Proof.
  intros Hlen Hn. unfold random_choice. rewrite Hlen.
  destruct n as [|n']; [lia |].
  assert (Hlt : random_draw env (draws st) mod S n' < S n')
    by (apply Nat.mod_upper_bound; lia).
  destruct tensor_list as [z|h|l|l]; try discriminate;
    injection Hlen as Hlen;
    (assert (Hlt' : random_draw env (draws st) mod S n' < length l)
       by (rewrite Hlen; exact Hlt));
    destruct (lookup_lt_is_Some_2 l _ Hlt') as [x Hx];
    exists x; unfold py_getitem; rewrite Hx; reflexivity.
Qed.

Section UnboundOperator.

Context (env : Env) (self : Backend).
Context (input_shapes : shapes) (dtype : string) (td : torch_dtype).
Context (st st1 : state) (pool : pyval) (n : nat).

Hypothesis Hnone : op self = None.
Hypothesis Htd : torch env !! dtype = Some td.
Hypothesis Hbuild : build_tensor env self input_shapes td st = (Ret pool, st1).
Hypothesis Hlen : py_len pool = Ret n.
Hypothesis Hn : 0 < n.

Lemma measure_unbound_operator :
  measure env self pool st1
  = (Raise TypeError,
     mkState (ticks st1) (S (draws st1)) (calls st1) (builds st1)
             (trace st1 ++ [EvDeviceSynchronize; EvBarrier])).
Proof.
  unfold measure, device_synchronize, barrier, for_range.
  rewrite !bind_log, bind_unfold. change (Z.to_nat 5) with 5.
  simpl for_range_from. rewrite !bind_unfold.
  destruct (random_choice_slot env pool n
              (logged [EvBarrier] (logged [EvDeviceSynchronize] st1)) Hlen Hn)
    as [x Hx].
  rewrite Hx, Hnone, run_operation_none. simpl.
  rewrite <- app_assoc. reflexivity.
Qed.

(** X7: [__init__] leaves [self.op] at [None].  If [perf] runs before
    [get_op_instance] has bound the operator and the pool is not empty,
    the first warm-up call raises [TypeError]: the report has latency 0
    and error ["RUN_OP_ERROR"], no operator was invoked and the clock was
    not read. *)
Theorem unbound_operator_run_op_error :
  perf env self input_shapes dtype st
  = (Ret (report_of self td input_shapes 0 "RUN_OP_ERROR"),
     mkState (ticks st1) (S (draws st1)) (calls st1) (builds st1)
       (trace st1
        ++ [EvDeviceSynchronize; EvBarrier; EvPrintExc TypeError;
            EvDelTensorList; EvEmptyCache;
            EvDumpReport
              (r_kind (report_of self td input_shapes 0 "RUN_OP_ERROR"))])).
Proof.
  rewrite (perf_after_build env self _ _ td st st1 pool n Htd Hbuild Hlen).
  replace (0 <? n)%nat with true by (symmetry; apply Nat.ltb_lt; exact Hn).
  cbv iota. unfold measured. rewrite measure_unbound_operator.
  unfold logged. simpl. rewrite <- !app_assoc. reflexivity.
Qed.

End UnboundOperator.

Lemma unbound_operator_run_op_error_witness :
  perf (demo_env 4096 1000)
       (mkBackend "allreduce" 100 None None "cuda" (80 * 1024 ^ 3) (80 * 1024 ^ 3))
       [[64; 64]%Z] "float32" initial_state
  = (Ret (mkReport CommunicationOps "allreduce" float32 [[64; 64]%Z] None
                   0 "RUN_OP_ERROR"),
     mkState 0 1 0 1
       [EvCreateTensors; EvDeviceSynchronize; EvBarrier; EvPrintExc TypeError;
        EvDelTensorList; EvEmptyCache; EvDumpReport CommunicationOps]).
Proof.
  apply (unbound_operator_run_op_error (demo_env 4096 1000)
           (mkBackend "allreduce" 100 None None "cuda" (80 * 1024 ^ 3)
                      (80 * 1024 ^ 3))
           [[64; 64]%Z] "float32" float32 initial_state
           (mkState 0 0 0 1 [EvCreateTensors])
           (VList [VList [VTensor 0; VTensor 1]]) 1).
  - reflexivity.
  - vm_compute. reflexivity.
  - vm_compute. reflexivity.
  - reflexivity.
  - lia.
Defined.

(** ** Binding the operator *)



(** An operator missing from the registry of executables cannot be bound. *)
Example get_op_instance_missing :
  get_op_instance (<["softmax"%string := op_ok]> ∅) gemm_80GiB
  = Raise NotImplementedError.
Proof. vm_compute. reflexivity. Qed.

(** ** A complete measurement *)


(** What the planner returns lies between the bounds it is given. *)
Lemma plan_iterations_range (self : Backend) (avg : Q) (st st' : state) (n : Z) :
  plan_iterations self avg st = (Ret n, st') →
  (n ≤ Z.max 2 (iterations self))%Z
  ∧ ((0 < avg)%Q → (1 ≤ iterations self)%Z → (1 ≤ n)%Z).
Proof.
  unfold plan_iterations.
  destruct (Qgt_bool avg 10) eqn:E.
  - intros [= <- _]. split; lia.
  - rewrite bind_unfold. unfold lift, truediv.
    destruct (Qeq_bool avg 0); [discriminate |].
    intros H.
    change ((Ret (Z.min (Qceiling (10 / avg)) (iterations self)), st)
            = (Ret n, st')) in H.
    assert (Hn : n = Z.min (Qceiling (10 / avg)) (iterations self))
      by congruence.
    clear H. split; [lia |]. intros Hpos Hit.
    apply Qgt_bool_false in E.
    pose proof (ceiling_budget_positive avg Hpos E). lia.
Qed.

(** ** The rounding of the reported latency *)






(** [round(2.675, 2)] is [2.67]: the binary64 nearest to 2.675 lies below
    it.  [round(0.125, 2)] is [0.12]: 0.125 is a binary64, and the tie
    goes to the even hundredth. *)
Example round2_binary_tie : round2 (2675 # 1000) = (267 # 100)%Q.
Proof. vm_compute. reflexivity. Qed.

Example round2_decimal_tie : round2 (125 # 1000) = (12 # 100)%Q.
Proof. vm_compute. reflexivity. Qed.

(** One iteration timed over 2675 nanoseconds is reported as 2.67
    microseconds. *)
Example perf_latency_binary_tie :
  (perf (demo_env 4096 2675) (demo_backend "gemm" 1 80 op_ok)
        [[64; 64]%Z] "float32" initial_state).1
  = Ret (mkReport ComputationOps "gemm" float32 [[64; 64]%Z] None
                  (267 # 100) "").
Proof. vm_compute. reflexivity. Qed.

Section CompleteRun.

Context (env : Env) (self : Backend) (f : operator) (pool : list pyval).

Hypothesis Hop : op self = Some f.
Hypothesis Hok : ∀ c args, f c args = Ret tt.
Hypothesis Hpool : 1 ≤ length pool.
Hypothesis Hunpack : ∀ v, v ∈ pool → is_ret (py_unpack v) = true.

(** One iteration of warm-up or calibration, with its effects. *)
Lemma random_run_effects (i : nat) (st : state) :
  random_run env self (VList pool) i st
  = (Ret tt,
     mkState (ticks st) (S (draws st)) (S (calls st)) (builds st)
             (trace st ++ [EvRunOp (slot_args pool (random_draw env (draws st)))])).
Proof.
  pose proof (pool_nonempty pool Hpool) as Hne.
  unfold random_run, random_choice. rewrite bind_unfold.
  destruct (pool_slot pool Hne Hunpack (random_draw env (draws st)))
    as (v & Hv & Hargs).
  assert (Hlen : length pool ≠ 0) by lia.
  unfold py_len, py_getitem.
  destruct (length pool) as [|k] eqn:Elen; [congruence |].
  rewrite Hv. unfold _run_operation. rewrite Hop, bind_unfold.
  unfold lift. rewrite Hargs. unfold invoke. rewrite Hok. reflexivity.
Qed.

Lemma random_loop_effects (n i : nat) (st : state) :
  ∃ st', for_range_from i n (random_run env self (VList pool)) st = (Ret tt, st')
         ∧ ticks st' = ticks st ∧ calls st' = calls st + n
         ∧ draws st' = draws st + n ∧ builds st' = builds st.
Proof.
  revert i st. induction n as [|n IH]; intros i st.
  - exists st. repeat split; simpl; lia.
  - simpl. rewrite bind_unfold, random_run_effects.
    match goal with |- context [for_range_from (S i) n _ ?s] =>
      destruct (IH (S i) s) as (st' & Hrun & Ht & Hc & Hd & Hb) end.
    exists st'. simpl in *. repeat split; [exact Hrun | lia ..].
Qed.

(** The timed run, with its effects. *)
Lemma core_perf_effects (n : Z) (st : state) :
  (1 ≤ n)%Z →
  ∃ st',
    core_perf env self n (VList pool) st
    = (Ret (inject_Z (perf_counter_ns env (S (ticks st))
                      - perf_counter_ns env (ticks st)) / 1e3 / inject_Z n)%Q,
       st')
    ∧ ticks st' = S (S (ticks st)) ∧ calls st' = calls st + Z.to_nat n
    ∧ draws st' = draws st ∧ builds st' = builds st.
Proof.
  intros Hn.
  assert (Hn0 : ¬ (inject_Z n == 0)%Q).
  { change 0%Q with (inject_Z 0). rewrite inject_Z_injective. lia. }
  unfold core_perf, device_synchronize, barrier, for_range.
  rewrite !bind_log, bind_clock, bind_unfold.
  change (for_range_from 0 (Z.to_nat n) _)
    with (for_range_from 0 (Z.to_nat n) (cyclic_run self (VList pool))).
  rewrite (cyclic_loop_ok self f pool Hop Hok (pool_nonempty pool Hpool) Hunpack).
  rewrite !bind_log, bind_clock. simpl.
  unfold lift. rewrite (truediv_ret _ _ Hn0).
  eexists. split; [reflexivity |]. simpl. repeat split.
Qed.

(** The [try] block when the operator returns and the planner yields
    [n >= 1]: ten calls for warm-up and calibration, then the timed run
    on the next two readings of the clock. *)
Lemma measure_planned (n : Z) (st : state) :
  (∀ s, plan_iterations self
          (inject_Z (perf_counter_ns env (S (ticks st))
                     - perf_counter_ns env (ticks st)) / 1e9 / inject_Z 5) s
        = (Ret n, s)) →
  (1 ≤ n)%Z →
  ∃ st',
    measure env self (VList pool) st
    = (Ret (round2
              (inject_Z (perf_counter_ns env (S (S (S (ticks st))))
                         - perf_counter_ns env (S (S (ticks st))))
               / 1e3 / inject_Z n)), st')
    ∧ ticks st' = ticks st + 4
    ∧ calls st' = calls st + 10 + Z.to_nat n.
Proof.
  intros Hplan Hn.
  unfold measure, device_synchronize, barrier, for_range.
  rewrite !bind_log, bind_unfold. change (Z.to_nat 5) with 5.
  match goal with |- context [for_range_from 0 5 _ ?s] =>
    destruct (random_loop_effects 5 0 s) as (s1 & Hwarm & Ht1 & Hc1 & _) end.
  change (for_range_from 0 5 _)
    with (for_range_from 0 5 (random_run env self (VList pool))).
  rewrite Hwarm, !bind_log, bind_clock, bind_unfold.
  match goal with |- context [for_range_from 0 5 _ ?s] =>
    destruct (random_loop_effects 5 0 s) as (s2 & Htest & Ht2 & Hc2 & _) end.
  rewrite Htest, !bind_log, bind_clock.
  simpl in Ht1, Ht2, Hc1, Hc2. simpl ticks. rewrite Ht2, Ht1.
  rewrite bind_unfold, Hplan. cbv beta iota. rewrite bind_unfold.
  match goal with |- context [core_perf env self n (VList pool) ?s] =>
    destruct (core_perf_effects n s Hn)
      as (s3 & Hcore & Ht3 & Hc3 & _) end.
  rewrite Hcore. simpl in Ht3, Hc3.
  eexists. split; [reflexivity |]. split; lia.
Qed.


End CompleteRun.

(** ** No iteration requested *)

(** An elapsed time of at most 50 seconds over the five calibration calls
    is an average of at most 10 seconds. *)
Lemma calibration_average_bounds (elapsed : Z) :
  (0 < elapsed)%Z → (elapsed ≤ 5 * 10 ^ 10)%Z →
  (0 < inject_Z elapsed / 1e9 / inject_Z 5)%Q
  ∧ (inject_Z elapsed / 1e9 / inject_Z 5 <= 10)%Q.
Proof.
  intros H1 H2.
  assert (Hq1 : (0 < inject_Z elapsed)%Q).
  { change 0%Q with (inject_Z 0). rewrite <- Zlt_Qlt. lia. }
  assert (Hq2 : (inject_Z elapsed <= inject_Z (5 * 10 ^ 10))%Q).
  { rewrite <- Zle_Qle. lia. }
  split.
  - apply Qlt_shift_div_l; [reflexivity |].
    apply Qlt_shift_div_l; [reflexivity |]. lra.
  - apply Qle_shift_div_r; [reflexivity |].
    apply Qle_shift_div_r; [reflexivity |].
    eapply Qle_trans; [exact Hq2 |]. vm_compute. discriminate.
Qed.

(** An elapsed time of more than 50 seconds over the five calibration
    calls is an average of more than 10 seconds. *)
Lemma calibration_average_over (elapsed : Z) :
  (5 * 10 ^ 10 < elapsed)%Z → (10 < inject_Z elapsed / 1e9 / inject_Z 5)%Q.
Proof.
  intros H.
  assert (Hq : (inject_Z (5 * 10 ^ 10) < inject_Z elapsed)%Q).
  { rewrite <- Zlt_Qlt. lia. }
  apply Qlt_shift_div_l; [reflexivity |].
  apply Qlt_shift_div_l; [reflexivity |].
  eapply Qle_lt_trans; [| exact Hq]. vm_compute. discriminate.
Qed.

Section ZeroIterations.

Context (env : Env) (self : Backend).
Context (input_shapes : shapes) (dtype : string) (td : torch_dtype).
Context (st st1 : state) (f : operator) (pool : list pyval).

Hypothesis Hzero : iterations self = 0%Z.
Hypothesis Htd : torch env !! dtype = Some td.
Hypothesis Hbuild :
  build_tensor env self input_shapes td st = (Ret (VList pool), st1).
Hypothesis Hpool : 1 ≤ length pool.
Hypothesis Hunpack : ∀ v, v ∈ pool → is_ret (py_unpack v) = true.
Hypothesis Hop : op self = Some f.
Hypothesis Hok : ∀ c args, f c args = Ret tt.

(** C9, amended: with no iteration requested, a pool that is not empty
    and an operator that returns at every invocation, what [perf] reports
    depends on the calibration window, of positive length.  If the average
    is at most 10 seconds, the planner yields 0 iterations, [core_perf]
    divides by zero, and [perf] reports latency 0 and ["RUN_OP_ERROR"],
    the exception printed being [ZeroDivisionError].  If the average
    exceeds 10 seconds, the planner yields 2 iterations whatever was
    requested, the operator is invoked twice more (12 times in all), and
    [perf] reports a measurement, with no error. *)
Theorem zero_iterations_run_op_error :
  (0 < perf_counter_ns env (S (ticks st1)) - perf_counter_ns env (ticks st1))%Z →
  ((perf_counter_ns env (S (ticks st1)) - perf_counter_ns env (ticks st1)
    ≤ 5 * 10 ^ 10)%Z →
   plan_iterations self
     (inject_Z (perf_counter_ns env (S (ticks st1))
                - perf_counter_ns env (ticks st1)) / 1e9 / inject_Z 5) st1
   = (Ret 0%Z, st1)
   ∧ (∃ s, core_perf env self 0 (VList pool) st1 = (Raise ZeroDivisionError, s))
   ∧ ∃ r st' tr,
       perf env self input_shapes dtype st = (Ret r, st')
       ∧ r_latency r = 0%Q
       ∧ r_error r = "RUN_OP_ERROR"%string
       ∧ trace st'
         = tr ++ [EvPrintExc ZeroDivisionError; EvDelTensorList; EvEmptyCache;
                  EvDumpReport (r_kind r)])
  ∧ ((5 * 10 ^ 10
      < perf_counter_ns env (S (ticks st1)) - perf_counter_ns env (ticks st1))%Z →
     plan_iterations self
       (inject_Z (perf_counter_ns env (S (ticks st1))
                  - perf_counter_ns env (ticks st1)) / 1e9 / inject_Z 5) st1
     = (Ret 2%Z, st1)
     ∧ ∃ r st',
         perf env self input_shapes dtype st = (Ret r, st')
         ∧ r_error r = ""%string
         ∧ calls st' = calls st1 + 12).
Proof.
  intros Hpos. split.
  - intros Hle.
    destruct (calibration_average_bounds _ Hpos Hle) as [Havg0 Havg10].
    assert (Hplan : ∀ s,
              plan_iterations self
                (inject_Z (perf_counter_ns env (S (ticks st1))
                           - perf_counter_ns env (ticks st1)) / 1e9 / inject_Z 5) s
              = (Ret 0%Z, s)).
    { intros s. rewrite plan_iterations_within_budget; [| exact Havg10 |].
      - rewrite Hzero. do 2 f_equal. apply Z.min_r.
        pose proof (ceiling_budget_positive _ Havg0 Havg10). lia.
      - intros E. rewrite E in Havg0. now apply Qlt_irrefl in Havg0. }
    split; [apply Hplan | split].
    + destruct (core_perf_zero env self (VList pool) st1) as (s & Hs & _). eauto.
    + destruct (measure_calibrated env self f pool Hop Hok Hpool Hunpack st1)
        as (st_c & Hmeasure & _).
      rewrite bind_unfold, Hplan, bind_unfold in Hmeasure.
      destruct (core_perf_zero env self (VList pool) st_c) as (s & Hs & _).
      rewrite Hs in Hmeasure.
      destruct (perf_terminal env self input_shapes dtype st td (VList pool) st1
                  (length pool) Htd Hbuild eq_refl)
        as (latency & error & st2 & Hperf & _ & Hcases).
      destruct (Hcases Hpool) as [[_ Hret] | (-> & -> & e & sx & Hraise & ->)];
        [congruence |].
      rewrite Hmeasure in Hraise. injection Hraise as <- <-.
      eexists _, _, (trace s). split; [exact Hperf |].
      rewrite report_of_error, report_of_latency.
      split; [reflexivity | split; [reflexivity |]].
      simpl. rewrite <- app_assoc. reflexivity.
  - intros Hgt.
    pose proof (calibration_average_over _ Hgt) as Havg.
    assert (Hplan : ∀ s,
              plan_iterations self
                (inject_Z (perf_counter_ns env (S (ticks st1))
                           - perf_counter_ns env (ticks st1)) / 1e9 / inject_Z 5) s
              = (Ret 2%Z, s)).
    { intros s. now apply plan_iterations_over_budget. }
    split; [apply Hplan |].
    destruct (measure_planned env self f pool Hop Hok Hpool Hunpack 2 st1 Hplan)
      as (s & Hmeasure & _ & Hc); [lia |].
    eexists. eexists.
    rewrite (perf_after_build env self _ _ td st st1 (VList pool) (length pool)
               Htd Hbuild eq_refl).
    replace (0 <? length pool)%nat with true
      by (symmetry; apply Nat.ltb_lt; lia).
    cbv iota. unfold measured. rewrite Hmeasure.
    split; [reflexivity |]. split; [apply report_of_error |].
    change (Z.to_nat 2) with 2 in Hc. simpl. lia.
Qed.

End ZeroIterations.

(** The sample workload of the witness: an all-reduce with no iteration
    requested, whose calibration window lasts one microsecond. *)
Lemma zero_iterations_run_op_error_witness :
  plan_iterations (demo_backend "allreduce" 0 80 op_ok)
    (inject_Z (1000 - 0) / 1e9 / inject_Z 5)
    (mkState 0 0 0 1 [EvCreateTensors])
  = (Ret 0%Z, mkState 0 0 0 1 [EvCreateTensors])
  ∧ (∃ s, core_perf (demo_env 4096 1000) (demo_backend "allreduce" 0 80 op_ok) 0
            (VList [VList [VTensor 0; VTensor 1]])
            (mkState 0 0 0 1 [EvCreateTensors])
          = (Raise ZeroDivisionError, s))
  ∧ ∃ r st' tr,
      perf (demo_env 4096 1000) (demo_backend "allreduce" 0 80 op_ok)
           [[64; 64]%Z] "float32" initial_state = (Ret r, st')
      ∧ r_latency r = 0%Q
      ∧ r_error r = "RUN_OP_ERROR"%string
      ∧ trace st'
        = tr ++ [EvPrintExc ZeroDivisionError; EvDelTensorList; EvEmptyCache;
                 EvDumpReport (r_kind r)].
Proof.
  apply (zero_iterations_run_op_error (demo_env 4096 1000)
           (demo_backend "allreduce" 0 80 op_ok) [[64; 64]%Z] "float32" float32
           initial_state (mkState 0 0 0 1 [EvCreateTensors]) op_ok
           [VList [VTensor 0; VTensor 1]]).
  - reflexivity.
  - vm_compute. reflexivity.
  - vm_compute. reflexivity.
  - simpl. lia.
  - intros v Hv. apply list_elem_of_singleton in Hv as ->. reflexivity.
  - reflexivity.
  - intros c args. reflexivity.
  - simpl. lia.
  - simpl. lia.
Defined.

(** C9 as stated fails when one call takes more than 10 seconds: the
    planner then picks 2 iterations whatever the requested count, the timed
    run divides by 2, and [perf] reports a measurement.  Here no iteration
    is requested, the pool holds one tensor set, and the clock advances by
    60 seconds between two readings. *)
Lemma zero_iterations_counterexample :
  iterations (demo_backend "allreduce" 0 80 op_ok) = 0%Z
  ∧ build_tensor (demo_env 4096 (60 * 10 ^ 9))
                 (demo_backend "allreduce" 0 80 op_ok)
                 [[64; 64]%Z] float32 initial_state
    = (Ret (VList [VList [VTensor 0; VTensor 1]]),
       mkState 0 0 0 1 [EvCreateTensors])
  ∧ plan_iterations (demo_backend "allreduce" 0 80 op_ok)
      (inject_Z (60 * 10 ^ 9 - 0) / 1e9 / inject_Z 5)
      (mkState 0 0 0 1 [EvCreateTensors])
    = (Ret 2%Z, mkState 0 0 0 1 [EvCreateTensors])
  ∧ (perf (demo_env 4096 (60 * 10 ^ 9)) (demo_backend "allreduce" 0 80 op_ok)
          [[64; 64]%Z] "float32" initial_state).1
    = Ret (mkReport CommunicationOps "allreduce" float32 [[64; 64]%Z] None
                    (3000000000 # 100) "").
Proof. repeat split; vm_compute; reflexivity. Qed.

(** The measurement of the slow case needs the two timed invocations to
    return: an operator that returns ten times and raises afterwards is
    reported with ["RUN_OP_ERROR"], however long its calls take. *)
Example zero_iterations_slow_operator_raises :
  (perf (demo_env 4096 (60 * 10 ^ 9))
        (demo_backend "allreduce" 0 80
           (λ c _, if (c <? 10)%nat then Ret tt
                   else Raise (RuntimeError "device error")))
        [[64; 64]%Z] "float32" initial_state).1
  = Ret (mkReport CommunicationOps "allreduce" float32 [[64; 64]%Z] None
                  0 "RUN_OP_ERROR").
Proof. vm_compute. reflexivity. Qed.



(** X10: on an empty pool, [core_perf] raises [ZeroDivisionError] at the
    first [i % len(tensor_list)], after one reading of the clock and
    before any invocation of the operator. *)
Theorem core_perf_empty_pool (env : Env) (self : Backend) (n : Z) (st : state) :
  (1 ≤ n)%Z →
  core_perf env self n (VList []) st
  = (Raise ZeroDivisionError,
     mkState (S (ticks st)) (draws st) (calls st) (builds st)
             (trace st ++ [EvDeviceSynchronize; EvBarrier;
                           EvPerfCounter (perf_counter_ns env (ticks st))])).
Proof.
  intros Hn. unfold core_perf, device_synchronize, barrier, for_range.
  rewrite !bind_log, bind_clock, bind_unfold.
  destruct (Z.to_nat n) as [|k] eqn:E; [lia |].
  simpl. rewrite <- !app_assoc. reflexivity.
Qed.

Lemma core_perf_empty_pool_witness :
  core_perf (demo_env 4096 1000) gemm_80GiB 3 (VList []) initial_state
  = (Raise ZeroDivisionError,
     mkState 1 0 0 0 [EvDeviceSynchronize; EvBarrier; EvPerfCounter 0]).
Proof.
  apply (core_perf_empty_pool (demo_env 4096 1000) gemm_80GiB 3 initial_state).
  lia.
Defined.

(** ** How often the operator is invoked *)

Lemma invokes_weaken {A} (k k' : nat) (m : M A) :
  k ≤ k' → invokes_at_most k m → invokes_at_most k' m.
Proof. intros Hk Hm st. specialize (Hm st). lia. Qed.

Lemma invokes_ret {A} (a : A) : invokes_at_most 0 (mret a).
Proof. intros st. simpl. lia. Qed.

Lemma invokes_raise {A} (e : exn) : invokes_at_most 0 (raise (A := A) e).
Proof. intros st. simpl. lia. Qed.

Lemma invokes_lift {A} (o : outcome A) : invokes_at_most 0 (lift o).
Proof. intros st. simpl. lia. Qed.

Lemma invokes_log (e : event) : invokes_at_most 0 (log e).
Proof. intros st. simpl. lia. Qed.

(** A sequence invokes the operator at most as often as its two parts
    together; the bound of the second part may rest on what the first
    returned. *)
Lemma invokes_bind_post {A B} (P : A → Prop) (k1 k2 : nat) (m : M A)
    (f : A → M B) :
  invokes_at_most k1 m →
  (∀ st a st', m st = (Ret a, st') → P a) →
  (∀ a, P a → invokes_at_most k2 (f a)) →
  invokes_at_most (k1 + k2) (m ≫= f).
Proof.
  intros Hm HP Hf st. rewrite bind_unfold.
  specialize (Hm st). specialize (HP st).
  destruct (m st) as [[a|e] st1]; simpl in *.
  - specialize (Hf a (HP a st1 eq_refl) st1). lia.
  - lia.
Qed.

Lemma invokes_bind {A B} (k1 k2 : nat) (m : M A) (f : A → M B) :
  invokes_at_most k1 m → (∀ a, invokes_at_most k2 (f a)) →
  invokes_at_most (k1 + k2) (m ≫= f).
Proof.
  intros Hm Hf.
  apply (invokes_bind_post (λ _, True)); [exact Hm | auto | auto].
Qed.

Lemma invokes_then {A B} (k : nat) (m : M A) (f : A → M B) :
  invokes_at_most 0 m → (∀ a, invokes_at_most k (f a)) →
  invokes_at_most k (m ≫= f).
Proof. intros Hm Hf. exact (invokes_bind 0 k m f Hm Hf). Qed.

Lemma invokes_first {A B} (k : nat) (m : M A) (f : A → M B) :
  invokes_at_most k m → (∀ a, invokes_at_most 0 (f a)) →
  invokes_at_most k (m ≫= f).
Proof.
  intros Hm Hf. apply (invokes_weaken (k + 0)); [lia |].
  exact (invokes_bind k 0 m f Hm Hf).
Qed.

Lemma invokes_try_except {A} (k : nat) (body : M A) (handler : exn → M A) :
  invokes_at_most k body → (∀ e, invokes_at_most 0 (handler e)) →
  invokes_at_most k (try_except body handler).
Proof.
  intros Hm Hh st. unfold try_except. specialize (Hm st).
  destruct (body st) as [[a|e] st1]; simpl in *; [lia |].
  specialize (Hh e st1). lia.
Qed.

Lemma invokes_for_range_from (body : nat → M unit) :
  (∀ i, invokes_at_most 1 (body i)) →
  ∀ n i, invokes_at_most n (for_range_from i n body).
Proof.
  intros Hbody. induction n as [|n IH]; intros i.
  - apply invokes_ret.
  - simpl. apply (invokes_bind 1 n); [apply Hbody | intros _; apply IH].
Qed.

Section Invocations.

Context (env : Env) (self : Backend).

Lemma invokes_clock : invokes_at_most 0 (clock env).
Proof. intros st. simpl. lia. Qed.

Lemma invokes_run_operation (operation : option operator) (inputs : pyval) :
  invokes_at_most 1 (_run_operation operation inputs).
Proof.
  intros st. unfold _run_operation. rewrite bind_unfold. unfold lift.
  destruct (py_unpack inputs) as [args|e]; [| simpl; lia].
  destruct operation as [f|]; simpl; lia.
Qed.

Lemma invokes_random_run (tensor_list : pyval) (i : nat) :
  invokes_at_most 1 (random_run env self tensor_list i).
Proof.
  unfold random_run. apply invokes_then; [| intros x; apply invokes_run_operation].
  intros st. unfold random_choice.
  destruct (py_len tensor_list) as [[|n]|e]; simpl; lia.
Qed.

Lemma invokes_cyclic_run (tensor_list : pyval) (i : nat) :
  invokes_at_most 1 (cyclic_run self tensor_list i).
Proof.
  unfold cyclic_run.
  apply invokes_then; [apply invokes_lift | intros n].
  apply invokes_then; [apply invokes_lift | intros j].
  apply invokes_then; [apply invokes_lift | intros x].
  apply invokes_run_operation.
Qed.

(** The timed run invokes the operator at most [prefer_iterations] times. *)
Lemma invokes_core_perf (prefer_iterations : Z) (tensor_list : pyval) :
  invokes_at_most (Z.to_nat prefer_iterations)
    (core_perf env self prefer_iterations tensor_list).
Proof.
  unfold core_perf, device_synchronize, barrier, for_range.
  apply invokes_then; [apply invokes_log | intros _].
  apply invokes_then; [apply invokes_log | intros _].
  apply invokes_then; [apply invokes_clock | intros start_time].
  apply invokes_first.
  - apply invokes_for_range_from. intros i.
    apply (invokes_cyclic_run tensor_list i).
  - intros _.
    apply invokes_then; [apply invokes_log | intros _].
    apply invokes_then; [apply invokes_log | intros _].
    apply invokes_then; [apply invokes_clock | intros end_time].
    apply invokes_lift.
Qed.

Lemma invokes_measure (tensor_list : pyval) :
  invokes_at_most (10 + Z.to_nat (Z.max 2 (iterations self)))
    (measure env self tensor_list).
Proof.
  unfold measure, device_synchronize, barrier, for_range.
  apply invokes_then; [apply invokes_log | intros _].
  apply invokes_then; [apply invokes_log | intros _].
  apply (invokes_bind 5 (5 + Z.to_nat (Z.max 2 (iterations self)))).
  { apply (invokes_for_range_from (random_run env self tensor_list)).
    intros i. apply invokes_random_run. }
  intros _.
  apply invokes_then; [apply invokes_log | intros _].
  apply invokes_then; [apply invokes_log | intros _].
  apply invokes_then; [apply invokes_clock | intros start_time].
  apply (invokes_bind 5 (Z.to_nat (Z.max 2 (iterations self)))).
  { apply (invokes_for_range_from (random_run env self tensor_list)).
    intros i. apply invokes_random_run. }
  intros _.
  apply invokes_then; [apply invokes_log | intros _].
  apply invokes_then; [apply invokes_log | intros _].
  apply invokes_then; [apply invokes_clock | intros end_time].
  apply (invokes_bind_post (λ n, (n ≤ Z.max 2 (iterations self))%Z) 0).
  - intros st. unfold plan_iterations.
    destruct (Qgt_bool _ _); [simpl; lia |].
    rewrite bind_unfold. unfold lift. destruct (truediv _ _); simpl; lia.
  - intros st n st' H. exact (proj1 (plan_iterations_range self _ _ _ _ H)).
  - intros n Hn. cbv beta in Hn.
    apply invokes_first; [| intros latency; apply invokes_ret].
    apply (invokes_weaken (Z.to_nat n)); [| apply invokes_core_perf].
    change (Z.to_nat n ≤ Z.to_nat (Z.max 2 (iterations self))). lia.
Qed.

Lemma invokes_emit_report (td : torch_dtype) (input_shapes : shapes)
    (latency : Q) (error : string) :
  invokes_at_most 0 (emit_report env self td input_shapes latency error).
Proof.
  intros st. unfold emit_report, get_op_compute_size_func.
  destruct (bool_decide _);
    destruct (default_op_compute_size_registry env !! op_name self);
    simpl; lia.
Qed.

Lemma invokes_perf (input_shapes : shapes) (dtype : string) :
  invokes_at_most (10 + Z.to_nat (Z.max 2 (iterations self)))
    (perf env self input_shapes dtype).
Proof.
  unfold perf.
  apply invokes_then.
  { intros st. unfold getattr_torch. destruct (torch env !! dtype); simpl; lia. }
  intros td. apply invokes_then.
  { intros st.
    destruct (build_tensor_respects_only_built env self input_shapes td st)
      as [Hc _]. lia. }
  intros tensor_list.
  apply invokes_then; [apply invokes_lift | intros n].
  apply invokes_first.
  - destruct (0 <? n)%nat.
    + apply invokes_try_except.
      * apply invokes_first; [apply invokes_measure | intros l; apply invokes_ret].
      * intros e. apply invokes_then; [apply invokes_log | intros _].
        apply invokes_ret.
    + apply (invokes_weaken 0); [lia | apply invokes_ret].
  - intros [latency error].
    apply invokes_then; [apply invokes_log | intros _].
    apply invokes_then; [apply invokes_log | intros _].
    apply invokes_emit_report.
Qed.

(** X8: whatever the operator, the registries, the clock and the draws
    do, one call of [perf] invokes the operator at most 10 times for
    warm-up and calibration plus, for the timed run, the requested
    iterations or 2 if that is more. *)
Theorem perf_invocations_bounded (input_shapes : shapes) (dtype : string)
    (st : state) :
  calls (perf env self input_shapes dtype st).2
  ≤ calls st + (10 + Z.to_nat (Z.max 2 (iterations self))).
Proof. exact (invokes_perf input_shapes dtype st). Qed.

End Invocations.

(** ** Communication operators run on one tensor set *)

Global Instance invoked_on_preorder (P : list pyval → Prop) :
  PreOrder (invoked_on P).
Proof.
  split.
  - intros st. exists []. split; [now rewrite app_nil_r |].
    intros a Ha. inversion Ha.
  - intros s1 s2 s3 (evs1 & H1 & Hall1) (evs2 & H2 & Hall2).
    exists (evs1 ++ evs2). split; [rewrite H2, H1, app_assoc; reflexivity |].
    intros a Ha. apply elem_of_app in Ha as [Ha | Ha]; auto.
Qed.

(** Constructor calls are not invocations of the operator. *)
Lemma only_built_invoked_on (P : list pyval → Prop) (st st' : state) :
  only_built st st' → invoked_on P st st'.
Proof.
  intros (_ & _ & _ & _ & Htr).
  eexists. split; [exact Htr |].
  intros a Ha. apply elem_of_replicate in Ha as [Ha _]. discriminate.
Qed.

Section OneTensorSet.

Context (env : Env) (self : Backend) (P : list pyval → Prop).

Lemma log_invoked_on (e : event) :
  (∀ a, e ≠ EvRunOp a) → respects (invoked_on P) (log e).
Proof.
  intros He st. exists [e]. split; [reflexivity |].
  intros a Ha. apply list_elem_of_singleton in Ha.
  exfalso. apply (He a). now symmetry.
Qed.

Lemma clock_invoked_on : respects (invoked_on P) (clock env).
Proof.
  intros st. eexists [_]. split; [reflexivity |].
  intros a Ha. apply list_elem_of_singleton in Ha. discriminate.
Qed.

(** The timed run and the [try] block keep a relation that their loop
    bodies keep. *)
Lemma core_perf_invoked_on (n : Z) (tensor_list : pyval) :
  (∀ i, respects (invoked_on P) (cyclic_run self tensor_list i)) →
  respects (invoked_on P) (core_perf env self n tensor_list).
Proof.
  intros Hbody.
  unfold core_perf, device_synchronize, barrier, for_range.
  apply respects_bind; [apply _ | apply log_invoked_on; discriminate | intros _].
  apply respects_bind; [apply _ | apply log_invoked_on; discriminate | intros _].
  apply respects_bind; [apply _ | apply clock_invoked_on | intros start_time].
  apply respects_bind; [apply _ | | intros _].
  { apply (respects_for_range_from _ (cyclic_run self tensor_list) Hbody). }
  apply respects_bind; [apply _ | apply log_invoked_on; discriminate | intros _].
  apply respects_bind; [apply _ | apply log_invoked_on; discriminate | intros _].
  apply respects_bind; [apply _ | apply clock_invoked_on | intros end_time].
  apply respects_lift; apply _.
Qed.

Lemma plan_iterations_invoked_on (avg : Q) :
  respects (invoked_on P) (plan_iterations self avg).
Proof.
  unfold plan_iterations.
  destruct (Qgt_bool _ _); [apply respects_ret; apply _ |].
  apply respects_bind;
    [apply _ | apply respects_lift; apply _ | intros ?; apply respects_ret; apply _].
Qed.

Lemma measure_invoked_on (tensor_list : pyval) :
  (∀ i, respects (invoked_on P) (random_run env self tensor_list i)) →
  (∀ i, respects (invoked_on P) (cyclic_run self tensor_list i)) →
  respects (invoked_on P) (measure env self tensor_list).
Proof.
  intros Hrandom Hcyclic.
  unfold measure, device_synchronize, barrier, for_range.
  apply respects_bind; [apply _ | apply log_invoked_on; discriminate | intros _].
  apply respects_bind; [apply _ | apply log_invoked_on; discriminate | intros _].
  apply respects_bind; [apply _ | | intros _].
  { apply (respects_for_range_from _ (random_run env self tensor_list) Hrandom). }
  apply respects_bind; [apply _ | apply log_invoked_on; discriminate | intros _].
  apply respects_bind; [apply _ | apply log_invoked_on; discriminate | intros _].
  apply respects_bind; [apply _ | apply clock_invoked_on | intros start_time].
  apply respects_bind; [apply _ | | intros _].
  { apply (respects_for_range_from _ (random_run env self tensor_list) Hrandom). }
  apply respects_bind; [apply _ | apply log_invoked_on; discriminate | intros _].
  apply respects_bind; [apply _ | apply log_invoked_on; discriminate | intros _].
  apply respects_bind; [apply _ | apply clock_invoked_on | intros end_time].
  apply respects_bind; [apply _ | apply plan_iterations_invoked_on | intros n].
  apply respects_bind;
    [apply _ | now apply core_perf_invoked_on | intros l; apply respects_ret; apply _].
Qed.

(** What [perf] does once the pool is there. *)
Lemma perf_tail_invoked_on (td : torch_dtype) (input_shapes : shapes)
    (tensor_list : pyval) :
  (∀ i, respects (invoked_on P) (random_run env self tensor_list i)) →
  (∀ i, respects (invoked_on P) (cyclic_run self tensor_list i)) →
  respects (invoked_on P)
    (n ← lift (py_len tensor_list);
     '(latency, error) ←
       (if (0 <? n)%nat then
          try_except
            (latency ← measure env self tensor_list; mret (latency, ""%string))
            (λ e, log (EvPrintExc e);; mret (0%Q, "RUN_OP_ERROR"%string))
        else
          mret (0%Q, "OOM"%string));
     log EvDelTensorList;;
     empty_cache;;
     emit_report env self td input_shapes latency error).
Proof.
  intros Hrandom Hcyclic.
  apply respects_bind; [apply _ | apply respects_lift; apply _ | intros n].
  apply respects_bind; [apply _ | | intros [latency error]].
  - destruct (0 <? n)%nat; [| apply respects_ret; apply _].
    apply respects_try_except; [apply _ | |].
    + apply respects_bind; [apply _ | | intros ?; apply respects_ret; apply _].
      now apply measure_invoked_on.
    + intros e. apply respects_bind; [apply _ | | intros ?].
      * apply log_invoked_on; discriminate.
      * apply respects_ret; apply _.
  - unfold empty_cache.
    apply respects_bind; [apply _ | apply log_invoked_on; discriminate | intros _].
    apply respects_bind; [apply _ | apply log_invoked_on; discriminate | intros _].
    unfold emit_report, get_op_compute_size_func.
    destruct (bool_decide _);
      (apply respects_bind; [apply _ | | intros _];
       [ destruct (default_op_compute_size_registry env !! op_name self);
         [apply respects_ret | apply respects_raise]; apply _
       | apply respects_bind;
         [ apply _ | apply log_invoked_on; discriminate
         | intros _; apply respects_ret; apply _ ] ]).
Qed.

End OneTensorSet.

Section SingleSlot.

Context (env : Env) (self : Backend) (v : pyval).

(** With a single slot [v], every drawn and every cycled slot is that
    slot: what the operator receives is the unpacking of [v]. *)
Lemma run_operation_single (st : state) :
  invoked_on (λ a, py_unpack v = Ret a) st (_run_operation (op self) v st).2.
Proof.
  unfold _run_operation. rewrite bind_unfold. unfold lift.
  destruct (py_unpack v) as [l|e] eqn:Hv; [| simpl; reflexivity].
  destruct (op self) as [f|]; [| simpl; reflexivity].
  exists [EvRunOp l]. split; [reflexivity |].
  intros a Ha. apply list_elem_of_singleton in Ha. injection Ha as ->.
  reflexivity.
Qed.

Lemma random_run_single (i : nat) :
  respects (invoked_on (λ a, py_unpack v = Ret a))
           (random_run env self (VList [v]) i).
Proof.
  intros st. unfold random_run, random_choice. rewrite bind_unfold. simpl.
  match goal with |- invoked_on _ _ (_run_operation _ _ ?s).2 =>
    pose proof (run_operation_single s) as H end.
  destruct H as (evs & Htr & Hall). exists evs. split; [exact Htr | exact Hall].
Qed.

Lemma cyclic_run_single (i : nat) :
  respects (invoked_on (λ a, py_unpack v = Ret a))
           (cyclic_run self (VList [v]) i).
Proof.
  intros st. unfold cyclic_run. rewrite !bind_unfold. simpl.
  apply run_operation_single.
Qed.

End SingleSlot.

Section CommunicationPerf.

Context (env : Env) (self : Backend).

Hypothesis Hname : op_name self ∈ provisioner_comm_ops.

(** For an operator of the list of line 156, the pool is empty or has one
    slot. *)
Lemma communication_pool_shape (input_shapes : shapes) (td : torch_dtype)
    (st st1 : state) (pool : pyval) :
  build_tensor env self input_shapes td st = (Ret pool, st1) →
  pool = VList [] ∨ ∃ v, pool = VList [v].
Proof.
  intros Hbuild.
  destruct (build_tensor_inv env self _ _ _ _ _ Hbuild)
    as (f & result & p & _ & _ & Hchoose & Hp).
  revert Hchoose. unfold choose_max_data_cnt.
  rewrite bool_decide_eq_true_2 by exact Hname.
  unfold local, lift, raise, mbind, M_bind, mret, M_ret.
  destruct (tensor_size_of result) as [ts|]; [| discriminate].
  destruct (Qgt_bool _ _); intros [= <-].
  - left. exact Hp.
  - right. destruct Hp as (l & -> & Hlen). change (Z.to_nat 1) with 1 in Hlen.
    destruct l as [|v [|w l]]; simpl in Hlen; try lia. eauto.
Qed.

(** X11: a communication-class operator runs on the single tensor set of
    its pool.  Once [build_tensor] has returned the pool, either the pool
    is empty and [perf] never invokes the operator, or the pool is one
    tensor set [v] and every invocation within this call of [perf]
    (warm-up, calibration and timed run) receives the unpacking of [v],
    whatever the operator returns or raises and whatever is drawn. *)
Theorem communication_runs_on_one_tensor_set (input_shapes : shapes)
    (dtype : string) (td : torch_dtype) (st st1 : state) (pool : pyval) :
  torch env !! dtype = Some td →
  build_tensor env self input_shapes td st = (Ret pool, st1) →
  ∃ evs,
    trace (perf env self input_shapes dtype st).2 = trace st ++ evs
    ∧ ((pool = VList [] ∧ ∀ a, EvRunOp a ∉ evs)
       ∨ ∃ v, pool = VList [v] ∧ ∀ a, EvRunOp a ∈ evs → py_unpack v = Ret a).
Proof.
  intros Htd Hbuild.
  pose proof (build_tensor_respects_only_built env self input_shapes td st)
    as Hframe.
  rewrite Hbuild in Hframe. simpl in Hframe.
  assert (Htail : ∀ P : list pyval → Prop,
            (∀ i, respects (invoked_on P) (random_run env self pool i)) →
            (∀ i, respects (invoked_on P) (cyclic_run self pool i)) →
            invoked_on P st (perf env self input_shapes dtype st).2).
  { intros P Hrandom Hcyclic.
    transitivity st1; [now apply only_built_invoked_on |].
    unfold perf, getattr_torch. rewrite Htd.
    rewrite bind_unfold. simpl. rewrite bind_unfold, Hbuild.
    now apply (perf_tail_invoked_on env self P td input_shapes pool). }
  destruct (communication_pool_shape _ _ _ _ _ Hbuild) as [-> | [v ->]].
  - destruct (Htail (λ _, False)) as (evs & Htr & Hall);
      [intros i s; reflexivity | intros i s; reflexivity |].
    exists evs. split; [exact Htr |]. left. split; [reflexivity |].
    intros a Ha. exact (Hall a Ha).
  - destruct (Htail (λ a, py_unpack v = Ret a)) as (evs & Htr & Hall);
      [apply random_run_single | apply cyclic_run_single |].
    exists evs. split; [exact Htr |]. right. exists v. split; [reflexivity |].
    exact Hall.
Qed.

End CommunicationPerf.

(** An all-reduce on two tensors: every invocation receives the two
    tensors of the one set that was built. *)
Lemma communication_runs_on_one_tensor_set_witness :
  ∃ evs,
    trace (perf (demo_env 4096 1000) allreduce_80GiB [[64; 64]%Z] "float32"
                initial_state).2 = trace initial_state ++ evs
    ∧ ((VList [VList [VTensor 0; VTensor 1]] = VList []
        ∧ ∀ a, EvRunOp a ∉ evs)
       ∨ ∃ v, VList [VList [VTensor 0; VTensor 1]] = VList [v]
              ∧ ∀ a, EvRunOp a ∈ evs → py_unpack v = Ret a).
Proof.
  apply (communication_runs_on_one_tensor_set (demo_env 4096 1000)
           allreduce_80GiB) with (td := float32)
                                 (st1 := mkState 0 0 0 1 [EvCreateTensors]).
  - apply (bool_decide_unpack _). vm_compute. exact I.
  - vm_compute. reflexivity.
  - vm_compute. reflexivity.
Defined.
